(** * Front panels: panel geometry, feature generation and classification

    A shallow embedding of the Go packages [geometry], [features], [panel],
    [format/eurorack], [format/intellijel], [format/pulplogic],
    [sources/panel] and of the feature pipeline of [cmd/blind], followed by
    the properties of the panel specification.

    Numbers.  Go's [float64] is embedded as the rationals [Q]: every
    constant of the formats is a decimal, constant expressions are exact in
    Go, and the run-time operations used are [+ - * /] and comparisons.
    Rounding of binary64 is therefore abstracted; numeric results are
    compared with [==] ([Qeq]), never by the shape of a fraction.  Go's
    [int] is embedded as [Z] with the 64-bit wrap-around of its one
    subtraction written out. *)

From Stdlib Require Import ZArith QArith Bool List String Lia Lqa.
From Stdlib Require Import PrimFloat Uint63.
From Stdlib Require Import DecimalString.
Import ListNotations.

(* Decimal constants such as 5.08 denote the nearest binary64 number. *)
Set Warnings "-inexact-float".

Local Open Scope string_scope.
Local Open Scope list_scope.
Local Open Scope Q_scope.

(** ** Machine numbers *)

Definition float64 : Set := Q.
Definition int : Set := Z.

Bind Scope Q_scope with float64.
Bind Scope Z_scope with int.

(** The values of a Go [int] on a 64-bit platform. *)
Definition is_int (z : Z) : Prop := (- 2 ^ 63 <= z < 2 ^ 63)%Z.

(** Two's complement wrap-around of a 64-bit signed result. *)
Definition int_wrap (z : Z) : int := ((z + 2 ^ 63) mod 2 ^ 64 - 2 ^ 63)%Z.

(** [a - b] on [int]. *)
Definition int_sub (a b : int) : int := int_wrap (a - b).

(** The conversion [float64(i)]. *)
Definition float64_of_int (i : int) : float64 := inject_Z i.

(** [a < b] on [float64]. *)
Definition f_ltb (a b : float64) : bool := negb (Qle_bool b a).

(** ** Panics

    A Go function that may [panic] returns a [result]. *)

Inductive result (A : Type) : Type :=
| Ok (a : A)
| Panic (msg : string).

Arguments Ok {A} a.
Arguments Panic {A} msg.

Definition bind {A B : Type} (m : result A) (k : A -> result B) : result B :=
  match m with
  | Ok a => k a
  | Panic msg => Panic msg
  end.

Notation "x <- m ;; k" := (bind m (fun x => k))
  (at level 61, m at next level, right associativity).

(** ** Package geometry *)

Module geometry.

(** Modelled from the spec: package [geometry] is not among the sources; the
    only thing used from it is the struct [Point{X, Y float64}], "an
    immutable pair of real-valued coordinates (X, Y) in millimetres". *)
Record Point : Set := { X : float64; Y : float64 }.

(** Two points denote the same location. *)
Definition Point_eq (p q : Point) : Prop := X p == X q /\ Y p == Y q.

End geometry.

(** ** Package features *)

Module features.
Import geometry.

(** [type Purpose int], constants declared with [iota].  The two declared
    constants are the values of the type here; on any other integer the
    method [String] panics. *)
Inductive Purpose : Set := Marking | Cutout.

Definition Purpose_value (p : Purpose) : int :=
  match p with Marking => 0 | Cutout => 1 end%Z.

Definition Purpose_eqb (p q : Purpose) : bool :=
  match p, q with
  | Marking, Marking | Cutout, Cutout => true
  | _, _ => false
  end.

(** [type Alignment int], constants declared with [iota].  The nine declared
    constants are the values of the type here; on any other integer [String]
    and the lookup of the text options panic. *)
Inductive Alignment : Set :=
| TopLeft | TopCentre | TopRight
| CentreLeft | Centre | CentreRight
| BottomLeft | BottomCentre | BottomRight.

Definition Alignment_value (a : Alignment) : int :=
  match a with
  | TopLeft => 0 | TopCentre => 1 | TopRight => 2
  | CentreLeft => 3 | Centre => 4 | CentreRight => 5
  | BottomLeft => 6 | BottomCentre => 7 | BottomRight => 8
  end%Z.

(** [DefaultTextSize] of text.go. *)
Definition DefaultTextSize : float64 := 14.0.

(** *** line.go *)
Module Line.

Record t : Set := { Start : Point; End : Point; Thickness : float64; Purpose : Purpose }.

Definition GetPurpose (l : t) : features.Purpose := Purpose l.

Definition SetPurpose (l : t) (purpose : features.Purpose) : t :=
  {| Start := Start l; End := End l; Thickness := Thickness l; Purpose := purpose |}.

End Line.

Definition NewLine (start end_ : Point) (thickness : float64) : result Line.t :=
  if f_ltb thickness 0.0
  then Panic "line thickness must be a positive value"
  else Ok {| Line.Start := start; Line.End := end_; Line.Thickness := thickness;
             Line.Purpose := Marking |}.

(** *** circle.go *)
Module Circle.

Record t : Set := { Origin : Point; Radius : float64; Purpose : Purpose }.

Definition GetPurpose (c : t) : features.Purpose := Purpose c.

Definition SetPurpose (c : t) (purpose : features.Purpose) : t :=
  {| Origin := Origin c; Radius := Radius c; Purpose := purpose |}.

End Circle.

Definition NewCircle (origin : Point) (radius : float64) : result Circle.t :=
  if f_ltb radius 0.0
  then Panic "circle radius must be a positive value"
  else Ok {| Circle.Origin := origin; Circle.Radius := radius; Circle.Purpose := Marking |}.

(** *** text.go *)
Module Text.

Record t : Set := {
  Origin : Point;
  Alignment : Alignment;
  Purpose : Purpose;
  Text : string;
  Size : float64;
  Rotate : float64
}.

Definition GetPurpose (x : t) : features.Purpose := Purpose x.

Definition SetPurpose (x : t) (purpose : features.Purpose) : t :=
  {| Origin := Origin x; Alignment := Alignment x; Purpose := purpose;
     Text := Text x; Size := Size x; Rotate := Rotate x |}.

End Text.

(** [TextOptionFunc]: a function on a pointer to [Text]; an option mutates the
    text under construction. *)
Definition TextOptionFunc : Set := Text.t -> Text.t.

Definition WithAlignment (align : Alignment) : TextOptionFunc :=
  fun x => {| Text.Origin := Text.Origin x; Text.Alignment := align;
              Text.Purpose := Text.Purpose x; Text.Text := Text.Text x;
              Text.Size := Text.Size x; Text.Rotate := Text.Rotate x |}.

Definition WithSize (size : float64) : TextOptionFunc :=
  fun x => {| Text.Origin := Text.Origin x; Text.Alignment := Text.Alignment x;
              Text.Purpose := Text.Purpose x; Text.Text := Text.Text x;
              Text.Size := size; Text.Rotate := Text.Rotate x |}.

Definition WithRotation (r : float64) : TextOptionFunc :=
  fun x => {| Text.Origin := Text.Origin x; Text.Alignment := Text.Alignment x;
              Text.Purpose := Text.Purpose x; Text.Text := Text.Text x;
              Text.Size := Text.Size x; Text.Rotate := r |}.

(** [NewText]: the struct literal names [Origin], [Text] and [Size]; the
    fields left out take Go's zero value, which is the constant numbered 0
    for the two enumerations and 0 for [Rotate]. *)
Definition NewText (origin : Point) (text : string) (options : list TextOptionFunc)
  : Text.t :=
  fold_left (fun x opt => opt x) options
    {| Text.Origin := origin; Text.Alignment := TopLeft; Text.Purpose := Marking;
       Text.Text := text; Text.Size := 14.0; Text.Rotate := 0 |}.

(** *** common.go: the interface [Feature]

    A value of interface type [Feature] holds a pointer to one of the three
    structs of the package, or a value of some other type that implements the
    two methods; of the latter only its [reflect] kind and purpose are kept.
    Pointers are to structs that exist: neither a nil interface value nor a
    nil pointer is represented.  A method that mutates its receiver returns
    the new struct; no feature is shared between two places. *)
Inductive Feature : Set :=
| ALine (l : Line.t)
| AText (x : Text.t)
| ACircle (c : Circle.t)
| AForeign (kind : string) (purpose : Purpose).

Definition GetPurpose (f : Feature) : Purpose :=
  match f with
  | ALine l => Line.GetPurpose l
  | AText x => Text.GetPurpose x
  | ACircle c => Circle.GetPurpose c
  | AForeign _ purpose => purpose
  end.

Definition SetPurpose (f : Feature) (purpose : Purpose) : Feature :=
  match f with
  | ALine l => ALine (Line.SetPurpose l purpose)
  | AText x => AText (Text.SetPurpose x purpose)
  | ACircle c => ACircle (Circle.SetPurpose c purpose)
  | AForeign kind _ => AForeign kind purpose
  end.

End features.

(** ** Package panel *)

Module panel.
Import geometry.

(** The interface [Panel].  All coordinates, distances and sizes are in
    millimetres. *)
Class Panel (T : Type) : Type := {
  MountingHoles : T -> list Point;
  MountingHoleDiameter : T -> float64;
  Height : T -> float64;
  Width : T -> float64;
  HorizontalFit : T -> float64;
  CornerRadius : T -> float64;
  RailHeightFromMountingHole : T -> float64;
  MountingHoleTopY : T -> float64;
  MountingHoleBottomY : T -> float64;
  HeaderLocation : T -> Point;
  FooterLocation : T -> Point
}.

Section Corners.
Context {T : Type} `{Panel T}.

(** Left edge coordinate, adjusted for horizontal fit. *)
Definition LeftX (spec : T) : float64 := HorizontalFit spec / 2.

(** Right edge coordinate, adjusted for horizontal fit. *)
Definition RightX (spec : T) : float64 := Width spec - HorizontalFit spec / 2.

Definition TopY (spec : T) : float64 := Height spec.

Definition BottomY (spec : T) : float64 := 0.

Definition TopLeft (spec : T) : Point := {| X := LeftX spec; Y := TopY spec |}.

Definition TopRight (spec : T) : Point := {| X := RightX spec; Y := TopY spec |}.

Definition BottomLeft (spec : T) : Point := {| X := LeftX spec; Y := BottomY spec |}.

Definition BottomRight (spec : T) : Point := {| X := RightX spec; Y := BottomY spec |}.

End Corners.

End panel.

(** ** Package eurorack: the Eurorack 3U format *)

Module eurorack.
Import geometry.

Definition PanelHeight3U : float64 := 128.5.
Definition ExtraMountingHolesThreshold : int := 8%Z.
Definition MountingHolesLeftOffset : float64 := 7.5.
Definition MountingHoleTopY3U : float64 := PanelHeight3U - 3.00.
Definition MountingHoleBottomY3U : float64 := 3.00.
Definition MountingHoleDiameter : float64 := 3.2.
Definition HP : float64 := 5.08.
Definition HorizontalFit : float64 := 0.25.
Definition CornerRadius : float64 := 0.0.
Definition RailHeightFromMountingHole : float64 := 5.0.

Module Eurorack.

Record t : Set := { HP : int }.

Definition Width (e : t) : float64 :=
  if (HP e =? 1)%Z then 5.00 else eurorack.HP * float64_of_int (HP e).

Definition Height (e : t) : float64 := PanelHeight3U.

Definition MountingHoleDiameter (e : t) : float64 := eurorack.MountingHoleDiameter.

Definition MountingHoles (e : t) : list Point :=
  let lhsx := if (HP e =? 1)%Z then Width e / 2.0 else MountingHolesLeftOffset in
  let holes := [ {| X := lhsx; Y := MountingHoleBottomY3U |};
                 {| X := lhsx; Y := MountingHoleTopY3U |} ] in
  if (HP e >? ExtraMountingHolesThreshold)%Z then
    let rhsx := MountingHolesLeftOffset + eurorack.HP * float64_of_int (int_sub (HP e) 3%Z) in
    let holes := holes ++ [ {| X := rhsx; Y := MountingHoleBottomY3U |} ] in
    let holes := holes ++ [ {| X := rhsx; Y := MountingHoleTopY3U |} ] in
    holes
  else holes.

Definition HorizontalFit (e : t) : float64 :=
  if (HP e =? 1)%Z then 0.0 else eurorack.HorizontalFit.

Definition CornerRadius (e : t) : float64 := eurorack.CornerRadius.

Definition RailHeightFromMountingHole (e : t) : float64 :=
  eurorack.RailHeightFromMountingHole.

Definition MountingHoleTopY (e : t) : float64 := MountingHoleTopY3U.

Definition MountingHoleBottomY (e : t) : float64 := MountingHoleBottomY3U.

Definition HeaderLocation (e : t) : Point :=
  {| X := Width e / 2; Y := MountingHoleTopY e |}.

Definition FooterLocation (e : t) : Point :=
  {| X := Width e / 2; Y := MountingHoleBottomY e |}.

End Eurorack.

Definition NewEurorack (hp : int) : Eurorack.t := {| Eurorack.HP := hp |}.

#[global] Instance Eurorack_Panel : panel.Panel Eurorack.t := {|
  panel.MountingHoles := Eurorack.MountingHoles;
  panel.MountingHoleDiameter := Eurorack.MountingHoleDiameter;
  panel.Height := Eurorack.Height;
  panel.Width := Eurorack.Width;
  panel.HorizontalFit := Eurorack.HorizontalFit;
  panel.CornerRadius := Eurorack.CornerRadius;
  panel.RailHeightFromMountingHole := Eurorack.RailHeightFromMountingHole;
  panel.MountingHoleTopY := Eurorack.MountingHoleTopY;
  panel.MountingHoleBottomY := Eurorack.MountingHoleBottomY;
  panel.HeaderLocation := Eurorack.HeaderLocation;
  panel.FooterLocation := Eurorack.FooterLocation
|}.

End eurorack.

(** ** Package intellijel: the Intellijel 1U format *)

Module intellijel.
Import geometry.

Definition PanelHeight1U : float64 := 39.65.
Definition ExtraMountingHolesThreshold : int := 6%Z.
Definition MountingHolesLeftOffset : float64 := eurorack.MountingHolesLeftOffset.
Definition MountingHoleTopY1U : float64 := PanelHeight1U - 3.00.
Definition MountingHoleBottomY1U : float64 := 3.00.
Definition MountingHoleDiameter : float64 := eurorack.MountingHoleDiameter.
Definition HP : float64 := eurorack.HP.
Definition HorizontalFit : float64 := 0.25.
Definition CornerRadius : float64 := 0.0.
Definition RailHeightFromMountingHole : float64 := eurorack.RailHeightFromMountingHole.

Module Intellijel.

Record t : Set := { HP : int }.

Definition Width (i : t) : float64 :=
  if (HP i =? 1)%Z then 5.00 else intellijel.HP * float64_of_int (HP i).

Definition Height (i : t) : float64 := PanelHeight1U.

Definition MountingHoleDiameter (i : t) : float64 := intellijel.MountingHoleDiameter.

Definition MountingHoles (i : t) : list Point :=
  let lhsx := if (HP i =? 1)%Z then Width i / 2.0 else MountingHolesLeftOffset in
  let holes := [ {| X := lhsx; Y := MountingHoleBottomY1U |};
                 {| X := lhsx; Y := MountingHoleTopY1U |} ] in
  if (HP i >? ExtraMountingHolesThreshold)%Z then
    let rhsx := MountingHolesLeftOffset + intellijel.HP * float64_of_int (int_sub (HP i) 3%Z) in
    let holes := holes ++ [ {| X := rhsx; Y := MountingHoleBottomY1U |} ] in
    let holes := holes ++ [ {| X := rhsx; Y := MountingHoleTopY1U |} ] in
    holes
  else holes.

Definition HorizontalFit (i : t) : float64 :=
  if (HP i =? 1)%Z then 0.00 else intellijel.HorizontalFit.

Definition CornerRadius (i : t) : float64 := intellijel.CornerRadius.

Definition RailHeightFromMountingHole (i : t) : float64 :=
  intellijel.RailHeightFromMountingHole.

Definition MountingHoleTopY (i : t) : float64 := MountingHoleTopY1U.

Definition MountingHoleBottomY (i : t) : float64 := MountingHoleBottomY1U.

Definition HeaderLocation (i : t) : Point :=
  {| X := Width i / 2.0; Y := MountingHoleTopY i |}.

Definition FooterLocation (i : t) : Point :=
  {| X := Width i / 2.0; Y := MountingHoleBottomY i |}.

End Intellijel.

Definition NewIntellijel (hp : int) : Intellijel.t := {| Intellijel.HP := hp |}.

#[global] Instance Intellijel_Panel : panel.Panel Intellijel.t := {|
  panel.MountingHoles := Intellijel.MountingHoles;
  panel.MountingHoleDiameter := Intellijel.MountingHoleDiameter;
  panel.Height := Intellijel.Height;
  panel.Width := Intellijel.Width;
  panel.HorizontalFit := Intellijel.HorizontalFit;
  panel.CornerRadius := Intellijel.CornerRadius;
  panel.RailHeightFromMountingHole := Intellijel.RailHeightFromMountingHole;
  panel.MountingHoleTopY := Intellijel.MountingHoleTopY;
  panel.MountingHoleBottomY := Intellijel.MountingHoleBottomY;
  panel.HeaderLocation := Intellijel.HeaderLocation;
  panel.FooterLocation := Intellijel.FooterLocation
|}.

End intellijel.

(** ** Package pulplogic: the Pulplogic 1U tile format *)

Module pulplogic.
Import geometry.

Definition inch : float64 := 25.4.
Definition PanelHeight1U : float64 := 1.70 * inch.
Definition ExtraMountingHolesThreshold : int := 6%Z.
Definition MountingHolesLeftOffset : float64 := 0.2 * inch.
Definition MountingHolesRightOffset : float64 := 0.2 * inch.
Definition MountingHoleTopY1U : float64 := PanelHeight1U - (0.118 * inch).
Definition MountingHoleBottomY1U : float64 := 0.118 * inch.
Definition MountingHoleDiameter : float64 := 0.125 * inch.
Definition HP : float64 := eurorack.HP.
Definition HorizontalFit : float64 := eurorack.HorizontalFit.
Definition CornerRadius : float64 := 0.0.
Definition RailHeightFromMountingHole : float64 := (0.291 / 2.0) * inch.

Module Pulplogic.

Record t : Set := { HP : int }.

Definition Width (p : t) : float64 :=
  if (HP p =? 1)%Z then 5.00 else pulplogic.HP * float64_of_int (HP p).

Definition Height (p : t) : float64 := PanelHeight1U.

Definition MountingHoleDiameter (p : t) : float64 := pulplogic.MountingHoleDiameter.

Definition MountingHoles (p : t) : list Point :=
  let lhsx := if (HP p =? 1)%Z then Width p / 2.0 else MountingHolesLeftOffset in
  let holes := [ {| X := lhsx; Y := MountingHoleBottomY1U |};
                 {| X := lhsx; Y := MountingHoleTopY1U |} ] in
  if (HP p >? ExtraMountingHolesThreshold)%Z then
    let rhsx := Width p - MountingHolesRightOffset in
    let holes := holes ++ [ {| X := rhsx; Y := MountingHoleBottomY1U |} ] in
    let holes := holes ++ [ {| X := rhsx; Y := MountingHoleTopY1U |} ] in
    holes
  else holes.

Definition HorizontalFit (p : t) : float64 :=
  if (HP p =? 1)%Z then 0.00 else pulplogic.HorizontalFit.

Definition CornerRadius (p : t) : float64 := pulplogic.CornerRadius.

Definition RailHeightFromMountingHole (p : t) : float64 :=
  pulplogic.RailHeightFromMountingHole.

Definition MountingHoleTopY (p : t) : float64 := MountingHoleTopY1U.

Definition MountingHoleBottomY (p : t) : float64 := MountingHoleBottomY1U.

Definition HeaderLocation (p : t) : Point :=
  {| X := Width p / 2.0; Y := MountingHoleTopY p |}.

Definition FooterLocation (p : t) : Point :=
  {| X := Width p / 2.0; Y := MountingHoleBottomY p |}.

End Pulplogic.

Definition NewPulplogic (hp : int) : Pulplogic.t := {| Pulplogic.HP := hp |}.

#[global] Instance Pulplogic_Panel : panel.Panel Pulplogic.t := {|
  panel.MountingHoles := Pulplogic.MountingHoles;
  panel.MountingHoleDiameter := Pulplogic.MountingHoleDiameter;
  panel.Height := Pulplogic.Height;
  panel.Width := Pulplogic.Width;
  panel.HorizontalFit := Pulplogic.HorizontalFit;
  panel.CornerRadius := Pulplogic.CornerRadius;
  panel.RailHeightFromMountingHole := Pulplogic.RailHeightFromMountingHole;
  panel.MountingHoleTopY := Pulplogic.MountingHoleTopY;
  panel.MountingHoleBottomY := Pulplogic.MountingHoleBottomY;
  panel.HeaderLocation := Pulplogic.HeaderLocation;
  panel.FooterLocation := Pulplogic.FooterLocation
|}.

End pulplogic.

(** ** Package sources/panel *)

Module panelsource.
Import geometry features panel.

(** The basic features of a blank panel: an outline and the mounting holes. *)
Definition GeneratePanelOutlineFeatures {T : Type} `{Panel T} (p : T)
  : result (list Feature) :=
  top <- NewLine (TopLeft p) (TopRight p) 0.1 ;;
  let top := Line.SetPurpose top Cutout in
  bottom <- NewLine (BottomLeft p) (BottomRight p) 0.1 ;;
  let bottom := Line.SetPurpose bottom Cutout in
  left <- NewLine (TopLeft p) (BottomLeft p) 0.1 ;;
  let left := Line.SetPurpose left Cutout in
  right <- NewLine (TopRight p) (BottomRight p) 0.1 ;;
  let right := Line.SetPurpose right Cutout in
  let f := [ALine top; ALine bottom; ALine left; ALine right] in
  fold_left
    (fun acc centre =>
       f <- acc ;;
       hole <- NewCircle centre (MountingHoleDiameter p / 2.0) ;;
       let hole := Circle.SetPurpose hole Cutout in
       Ok (f ++ [ACircle hole]))
    (MountingHoles p) (Ok f).

End panelsource.

(** ** The external libraries used by cmd/blind *)

(** go-gerber builds the primitives of a Gerber layer.  The library is not
    part of the repository: a primitive is kept as the record of the call
    that builds it. *)
Module gerber.

Inductive Shape : Set := RectShape | CircleShape.
Inductive XAlignment : Set := XLeft | XCenter | XRight.
Inductive YAlignment : Set := YBottom | YCenter | YTop.

Record TextOpts : Set := { XAlign : XAlignment; YAlign : YAlignment }.

Record Pt : Set := { ptX : float64; ptY : float64 }.

Definition Point (x y : float64) : Pt := {| ptX := x; ptY := y |}.

Inductive Primitive : Set :=
| Line (x1 y1 x2 y2 : float64) (shape : Shape) (thickness : float64)
| Circle (pt : Pt) (diameter : float64)
| Text (x y xScale : float64) (message fontName : string) (pts : float64)
       (opts : TextOpts).

End gerber.

(** The process-wide source of math/rand, as a state that each draw
    advances. *)
Module rand.

Class Source (S : Type) : Type := {
  Float64 : S -> float64 * S;
  Intn : int -> S -> int * S
}.

(** What the library promises of a source whose states satisfy [inv]:
    [Float64] is in the half-open interval from 0.0 to 1.0 and [Intn n] in
    that from 0 to [n]. *)
Record Lawful {S : Type} `{Source S} (inv : S -> Prop) : Prop := {
  Float64_range : forall s, inv s ->
    0 <= fst (Float64 s) /\ fst (Float64 s) < 1 /\ inv (snd (Float64 s));
  Intn_range : forall n s, (0 < n)%Z -> inv s ->
    (0 <= fst (Intn n s) < n)%Z /\ inv (snd (Intn n s))
}.

(** A source that replays a prepared sequence of draws; an exhausted tape
    yields 0. *)
Record Tape : Set := { floats : list float64; ints : list int }.

#[global] Instance Tape_Source : Source Tape := {|
  Float64 := fun t =>
    (hd 0 (floats t), {| floats := tl (floats t); ints := ints t |});
  Intn := fun n t =>
    ((hd 0 (ints t) mod n)%Z, {| floats := floats t; ints := tl (ints t) |})
|}.

(** The tapes a real source can produce. *)
Definition Tape_ok (t : Tape) : Prop :=
  Forall (fun r => 0 <= r /\ r < 1) (floats t).

End rand.

(** The standard logger: a message is its format and its arguments. *)
Module log.
Import features.

Inductive Arg : Set :=
| OfText (x : Text.t)      (* the result of [String] on a text feature *)
| OfString (s : string).

Record Message : Set := { format : string; args : list Arg }.

Definition Printf (format : string) (args : list Arg) (out : list Message)
  : list Message :=
  out ++ [ {| format := format; args := args |} ].

End log.

(** ** Command blind *)

Module blind.
Import geometry features panel.

(** A value of interface type [panel.Panel]: one of the three formats of the
    repository. *)
Inductive PanelValue : Set :=
| OfEurorack (e : eurorack.Eurorack.t)
| OfIntellijel (i : intellijel.Intellijel.t)
| OfPulplogic (p : pulplogic.Pulplogic.t).

Definition dispatch {A : Type}
  (fe : eurorack.Eurorack.t -> A) (fi : intellijel.Intellijel.t -> A)
  (fp : pulplogic.Pulplogic.t -> A) (v : PanelValue) : A :=
  match v with
  | OfEurorack e => fe e
  | OfIntellijel i => fi i
  | OfPulplogic p => fp p
  end.

#[global] Instance PanelValue_Panel : Panel PanelValue := {|
  MountingHoles := dispatch MountingHoles MountingHoles MountingHoles;
  MountingHoleDiameter :=
    dispatch MountingHoleDiameter MountingHoleDiameter MountingHoleDiameter;
  Height := dispatch Height Height Height;
  Width := dispatch Width Width Width;
  HorizontalFit := dispatch HorizontalFit HorizontalFit HorizontalFit;
  CornerRadius := dispatch CornerRadius CornerRadius CornerRadius;
  RailHeightFromMountingHole :=
    dispatch RailHeightFromMountingHole RailHeightFromMountingHole
             RailHeightFromMountingHole;
  MountingHoleTopY := dispatch MountingHoleTopY MountingHoleTopY MountingHoleTopY;
  MountingHoleBottomY :=
    dispatch MountingHoleBottomY MountingHoleBottomY MountingHoleBottomY;
  HeaderLocation := dispatch HeaderLocation HeaderLocation HeaderLocation;
  FooterLocation := dispatch FooterLocation FooterLocation FooterLocation
|}.

(** The width in units the panel value was built with. *)
Definition units (v : PanelValue) : int :=
  dispatch eurorack.Eurorack.HP intellijel.Intellijel.HP pulplogic.Pulplogic.HP v.

(** [configure], from the values of the flags [-format] and [-width]: the
    panel, or the error. *)
Definition configure (format : string) (width : int) : PanelValue + string :=
  if (width <? 1)%Z then inr "width must be greater than 0"
  else if (format =? "eurorack")%string then inl (OfEurorack (eurorack.NewEurorack width))
  else if (format =? "intellijel")%string
       then inl (OfIntellijel (intellijel.NewIntellijel width))
  else if (format =? "pulplogic")%string
       then inl (OfPulplogic (pulplogic.NewPulplogic width))
  else inr "invalid format specified".

(** [panelOutline]: the copy of [GeneratePanelOutlineFeatures] kept in the
    command. *)
Definition panelOutline {T : Type} `{Panel T} (p : T) : result (list Feature) :=
  top <- NewLine (TopLeft p) (TopRight p) 0.1 ;;
  let top := Line.SetPurpose top Cutout in
  bottom <- NewLine (BottomLeft p) (BottomRight p) 0.1 ;;
  let bottom := Line.SetPurpose bottom Cutout in
  left <- NewLine (TopLeft p) (BottomLeft p) 0.1 ;;
  let left := Line.SetPurpose left Cutout in
  right <- NewLine (TopRight p) (BottomRight p) 0.1 ;;
  let right := Line.SetPurpose right Cutout in
  let f := [ALine top; ALine bottom; ALine left; ALine right] in
  fold_left
    (fun acc centre =>
       f <- acc ;;
       hole <- NewCircle centre (MountingHoleDiameter p / 2.0) ;;
       let hole := Circle.SetPurpose hole Cutout in
       Ok (f ++ [ACircle hole]))
    (MountingHoles p) (Ok f).

Definition panelHeaderFooter {T : Type} `{Panel T} (p : T) (header footer : string)
  : list Feature :=
  let f := [] in
  let f :=
    if negb (header =? EmptyString)%string
    then f ++ [AText (NewText {| X := Width p / 2.0; Y := MountingHoleTopY p |}
                              header [WithAlignment Centre; WithSize 16.0])]
    else f in
  let f :=
    if negb (footer =? EmptyString)%string
    then f ++ [AText (NewText {| X := Width p / 2.0; Y := MountingHoleBottomY p |}
                              footer [WithAlignment Centre; WithSize 16.0])]
    else f in
  f.

(** A line feature as a gerber primitive. *)
Definition mkline (l : Line.t) : gerber.Primitive :=
  gerber.Line (X (Line.Start l)) (Y (Line.Start l))
              (X (Line.End l)) (Y (Line.End l))
              gerber.CircleShape (Line.Thickness l).

(** A circle feature as a gerber primitive. *)
Definition mkcircle (c : Circle.t) : gerber.Primitive :=
  gerber.Circle (gerber.Point (X (Circle.Origin c)) (Y (Circle.Origin c)))
                (Circle.Radius c * 2.0).

(** The lookup of the alignment in the map of text options; each of the nine
    alignments is a key, so the panic of a missing key is not reached. *)
Definition mktextopts (x : Text.t) : gerber.TextOpts :=
  match Text.Alignment x with
  | features.TopLeft => {| gerber.XAlign := gerber.XLeft; gerber.YAlign := gerber.YTop |}
  | features.CentreLeft => {| gerber.XAlign := gerber.XLeft; gerber.YAlign := gerber.YCenter |}
  | features.BottomLeft => {| gerber.XAlign := gerber.XLeft; gerber.YAlign := gerber.YBottom |}
  | features.TopCentre => {| gerber.XAlign := gerber.XCenter; gerber.YAlign := gerber.YTop |}
  | features.Centre => {| gerber.XAlign := gerber.XCenter; gerber.YAlign := gerber.YCenter |}
  | features.BottomCentre => {| gerber.XAlign := gerber.XCenter; gerber.YAlign := gerber.YBottom |}
  | features.TopRight => {| gerber.XAlign := gerber.XRight; gerber.YAlign := gerber.YTop |}
  | features.CentreRight => {| gerber.XAlign := gerber.XRight; gerber.YAlign := gerber.YCenter |}
  | features.BottomRight => {| gerber.XAlign := gerber.XRight; gerber.YAlign := gerber.YBottom |}
  end.

(** A text feature as a gerber primitive. *)
Definition mktext (x : Text.t) : gerber.Primitive :=
  gerber.Text (X (Text.Origin x)) (Y (Text.Origin x)) 1.0 (Text.Text x)
              "bitstreamverasansmono_bold" (Text.Size x) (mktextopts x).

Record primitives : Set := {
  outlines : list gerber.Primitive;
  drills : list gerber.Primitive;
  silkscreens : list gerber.Primitive
}.

Definition newprimitives : primitives :=
  {| outlines := []; drills := []; silkscreens := [] |}.

Definition addoutline (p : primitives) (pp : gerber.Primitive) : primitives :=
  {| outlines := outlines p ++ [pp]; drills := drills p; silkscreens := silkscreens p |}.

Definition addsilkscreen (p : primitives) (pp : gerber.Primitive) : primitives :=
  {| outlines := outlines p; drills := drills p; silkscreens := silkscreens p ++ [pp] |}.

Definition adddrill (p : primitives) (pp : gerber.Primitive) : primitives :=
  {| outlines := outlines p; drills := drills p ++ [pp]; silkscreens := silkscreens p |}.

(** What [collectPrimitives] writes to: the buckets behind the pointer
    [prims] and the output of the logger. *)
Definition collector : Set := primitives * list log.Message.

(** The body of the loop of [collectPrimitives]: the type switch on one
    item. *)
Definition collectPrimitive (st : collector) (item : Feature) : collector :=
  let (prims, out) := st in
  match item with
  | ALine f =>
      let line := mkline f in
      if Purpose_eqb (Line.GetPurpose f) Cutout
      then (addoutline prims line, out)
      else (addsilkscreen prims line, out)
  | AText f =>
      let text := mktext f in
      if Purpose_eqb (Text.GetPurpose f) Cutout
      then
        let out := log.Printf
          "warning: text feature in outline layer is probably an error: %v"
          [log.OfText f] out in
        (addoutline prims text, out)
      else (addsilkscreen prims text, out)
  | ACircle f =>
      let circle := mkcircle f in
      if Purpose_eqb (Circle.GetPurpose f) Cutout
      then (adddrill prims circle, out)
      else (addsilkscreen prims circle, out)
  | AForeign kind _ =>
      (prims, log.Printf "warning: unsupported feature type: %s" [log.OfString kind] out)
  end.

Definition collectPrimitives (feats : list Feature) (st : collector) : collector :=
  fold_left collectPrimitive feats st.

(** [randomLines]: random lines that fit between the rails. *)
Section RandomLines.
Context {T : Type} `{Panel T} {S : Type} `{rand.Source S}.

(** The closure [rxy]; its two draws are made in the order of the fields. *)
Definition rxy (panel : T) (s : S) : Point * S :=
  let xspace := Width panel - (HorizontalFit panel * 2.0) in
  let endheight := RailHeightFromMountingHole panel + MountingHoleBottomY panel in
  let yspace := Height panel - endheight * 2.0 in
  let xoffset := HorizontalFit panel * 2.0 in
  let yoffset := endheight in
  let (r1, s1) := rand.Float64 s in
  let (r2, s2) := rand.Float64 s1 in
  ({| X := xoffset + r1 * xspace; Y := yoffset + r2 * yspace |}, s2).

(** [k] more rounds of the loop, with [lines] collected so far. *)
Fixpoint randomLines_loop (panel : T) (k : nat) (lines : list Feature) (s : S)
  : result (list Feature) * S :=
  match k with
  | O => (Ok lines, s)
  | Datatypes.S k' =>
      let (a, s1) := rxy panel s in
      let (b, s2) := rxy panel s1 in
      let (i, s3) := rand.Intn 3%Z s2 in
      match NewLine a b (0.1 * float64_of_int i) with
      | Panic msg => (Panic msg, s3)
      | Ok l => randomLines_loop panel k' (lines ++ [ALine l]) s3
      end
  end.

Definition randomLines (panel : T) (n : int) (s : S) : result (list Feature) * S :=
  randomLines_loop panel (Z.to_nat n) [] s.

End RandomLines.

End blind.

(** * Eurorack in binary64

    The width, the horizontal fit and the mounting holes of a Eurorack panel
    once more, on IEEE 754 binary64 numbers, for the concrete widths of the
    specification.  A constant is the binary64 number nearest to its decimal
    (128.5, 3.00 and their difference 125.5 are exact); each operation is
    rounded to nearest even on its own, as on a target that does not fuse a
    multiplication with an addition. *)

Module binary64.

Local Open Scope float_scope.

(** The conversion [float64(i)], for [i] of magnitude below 2^63. *)
Definition float64_of_int (i : int) : float :=
  if (i <? 0)%Z then - of_uint63 (Uint63.of_Z (- i)) else of_uint63 (Uint63.of_Z i).

Definition PanelHeight3U : float := 128.5.
Definition ExtraMountingHolesThreshold : int := 8%Z.
Definition MountingHolesLeftOffset : float := 7.5.
Definition MountingHoleTopY3U : float := PanelHeight3U - 3.00.
Definition MountingHoleBottomY3U : float := 3.00.
Definition HP : float := 5.08.
Definition HorizontalFit_ : float := 0.25.

Definition Width (hp : int) : float :=
  if (hp =? 1)%Z then 5.00 else HP * float64_of_int hp.

Definition HorizontalFit (hp : int) : float :=
  if (hp =? 1)%Z then 0.0 else HorizontalFit_.

Definition MountingHoles (hp : int) : list (float * float) :=
  let lhsx := if (hp =? 1)%Z then Width hp / 2.0 else MountingHolesLeftOffset in
  let holes := [ (lhsx, MountingHoleBottomY3U); (lhsx, MountingHoleTopY3U) ] in
  if (hp >? ExtraMountingHolesThreshold)%Z then
    let rhsx := MountingHolesLeftOffset + HP * float64_of_int (int_sub hp 3%Z) in
    let holes := (holes ++ [ (rhsx, MountingHoleBottomY3U) ])%list in
    let holes := (holes ++ [ (rhsx, MountingHoleTopY3U) ])%list in
    holes
  else holes.

End binary64.

(** * The placement rule of the specification

    The specification describes the placement of the mounting holes as one
    rule with a table of constants for each format.  The definitions of this
    module follow its words; they are what the methods [MountingHoles] of
    the three formats are compared with. *)

Module placement.
Import geometry.

Record Constants : Set := {
  pitch : float64;        (* width of one unit *)
  leftOffset : float64;   (* X of the left pair *)
  bottomY : float64;      (* Y of the bottom row *)
  topY : float64;         (* Y of the top row *)
  threshold : int         (* widths beyond it have a right pair *)
}.

(** The nominal width: 5.00 at one unit, the pitch times the units
    otherwise. *)
Definition width (c : Constants) (hp : int) : float64 :=
  if (hp =? 1)%Z then 5.00 else pitch c * inject_Z hp.

(** The left pair at the left offset, moved to the middle of the panel at
    one unit; beyond the threshold a right pair at [rhsx] with the Y
    coordinates of the left pair. *)
Definition holes (c : Constants) (rhsx : float64) (hp : int) : list Point :=
  let lhsx := if (hp =? 1)%Z then width c hp / 2 else leftOffset c in
  [ {| X := lhsx; Y := bottomY c |}; {| X := lhsx; Y := topY c |} ]
  ++ (if (hp >? threshold c)%Z
      then [ {| X := rhsx; Y := bottomY c |}; {| X := rhsx; Y := topY c |} ]
      else []).

(** The right pair of the rule: the left offset plus the pitch times the
    units less three. *)
Definition right_of_left (c : Constants) (hp : int) : float64 :=
  leftOffset c + pitch c * inject_Z (hp - 3).

(** The rule, the same formula for the right pair in every format. *)
Definition rule (c : Constants) (hp : int) : list Point :=
  holes c (right_of_left c hp) hp.

Definition of_eurorack : Constants := {|
  pitch := eurorack.HP;
  leftOffset := eurorack.MountingHolesLeftOffset;
  bottomY := eurorack.MountingHoleBottomY3U;
  topY := eurorack.MountingHoleTopY3U;
  threshold := eurorack.ExtraMountingHolesThreshold
|}.

Definition of_intellijel : Constants := {|
  pitch := intellijel.HP;
  leftOffset := intellijel.MountingHolesLeftOffset;
  bottomY := intellijel.MountingHoleBottomY1U;
  topY := intellijel.MountingHoleTopY1U;
  threshold := intellijel.ExtraMountingHolesThreshold
|}.

Definition of_pulplogic : Constants := {|
  pitch := pulplogic.HP;
  leftOffset := pulplogic.MountingHolesLeftOffset;
  bottomY := pulplogic.MountingHoleBottomY1U;
  topY := pulplogic.MountingHoleTopY1U;
  threshold := pulplogic.ExtraMountingHolesThreshold
|}.

(** The table of the format of a panel value. *)
Definition constants (v : blind.PanelValue) : Constants :=
  blind.dispatch (fun _ => of_eurorack) (fun _ => of_intellijel)
                 (fun _ => of_pulplogic) v.

(** The right pair where each format puts it: Eurorack and Intellijel by
    the formula of the rule, Pulplogic at its right offset from the right
    edge. *)
Definition right_of (v : blind.PanelValue) : float64 :=
  match v with
  | blind.OfPulplogic p =>
      width of_pulplogic (pulplogic.Pulplogic.HP p) - pulplogic.MountingHolesRightOffset
  | _ => right_of_left (constants v) (blind.units v)
  end.

End placement.

(** * The interior of a panel

    The rectangles that the end points of the decorative lines are compared
    with. *)

Module interior.
Import geometry panel.

Section Interior.
Context {T : Type} `{Panel T}.

(** The keep-out at the bottom and at the top: the rail above the bottom
    mounting holes. *)
Definition endheight (p : T) : float64 :=
  RailHeightFromMountingHole p + MountingHoleBottomY p.

(** Between the rails: inset by [endheight] from the bottom and from the
    top. *)
Definition between_rails (p : T) (pt : Point) : Prop :=
  endheight p <= Y pt /\ Y pt <= Height p - endheight p.

(** The safe interior of the specification: inset by twice the horizontal
    fit from the left and from the right edge, and between the rails. *)
Definition safe (p : T) (pt : Point) : Prop :=
  (HorizontalFit p * 2 <= X pt /\ X pt <= Width p - HorizontalFit p * 2)
  /\ between_rails p pt.

(** Inset by twice the horizontal fit from the left edge only, and between
    the rails. *)
Definition right_of_left_inset (p : T) (pt : Point) : Prop :=
  (HorizontalFit p * 2 <= X pt /\ X pt <= Width p)
  /\ between_rails p pt.

End Interior.

(** The thicknesses of the decorative lines. *)
Definition thickness_ok (t : float64) : Prop := t == 0.0 \/ t == 0.1 \/ t == 0.2.

(** A line with both end points inset from the left edge and between the
    rails, of one of the three thicknesses, and a marking. *)
Definition decorative {T : Type} `{Panel T} (p : T) (f : features.Feature) : Prop :=
  exists l, f = features.ALine l
    /\ right_of_left_inset p (features.Line.Start l)
    /\ right_of_left_inset p (features.Line.End l)
    /\ thickness_ok (features.Line.Thickness l)
    /\ features.Line.Purpose l = features.Marking.

End interior.

(** * The names of the enumerations

    The methods [String] of [Purpose] and of [Alignment] (common.go), on the
    integers under the two types, so that the values outside the declared
    constants are covered. *)

Module stringer.
Import features.

(** The verb [%d] of [fmt.Sprintf]. *)
Definition itoa (i : int) : string := NilZero.string_of_int (Z.to_int i).

Definition Purpose_String (p : int) : result string :=
  if (p =? Purpose_value Marking)%Z then Ok "marking"
  else if (p =? Purpose_value Cutout)%Z then Ok "cutout"
  else Panic ("invalid Purpose value (valid range is "
              ++ itoa (Purpose_value Marking) ++ ".."
              ++ itoa (Purpose_value Cutout) ++ "): " ++ itoa p)%string.

Definition Alignment_String (a : int) : result string :=
  if (a =? Alignment_value TopLeft)%Z then Ok "top-left"
  else if (a =? Alignment_value TopCentre)%Z then Ok "top-centre"
  else if (a =? Alignment_value TopRight)%Z then Ok "top-right"
  else if (a =? Alignment_value CentreLeft)%Z then Ok "centre-left"
  else if (a =? Alignment_value Centre)%Z then Ok "centre"
  else if (a =? Alignment_value CentreRight)%Z then Ok "centre-right"
  else if (a =? Alignment_value BottomLeft)%Z then Ok "bottom-left"
  else if (a =? Alignment_value BottomCentre)%Z then Ok "bottom-centre"
  else if (a =? Alignment_value BottomRight)%Z then Ok "bottom-right"
  else Panic ("invalid Alignment value (valid range is "
              ++ itoa (Alignment_value TopLeft) ++ ".."
              ++ itoa (Alignment_value BottomRight) ++ "): " ++ itoa a)%string.

End stringer.

(** * The rest of command blind: the copper pour and the run *)

Module command.
Import geometry features panel blind.

(** The call [gerber.Polygon(offset, filled, points, thickness)], kept as
    its arguments. *)
Record Polygon : Set := {
  offset : gerber.Pt;
  filled : bool;
  points : list gerber.Pt;
  thickness : float64
}.

(** [copperPour]: the copper layer that the board houses ask for. *)
Definition copperPour {T : Type} `{Panel T} (pnl : T) : Polygon :=
  let left := LeftX pnl in
  let right := RightX pnl in
  let top := MountingHoleTopY pnl - RailHeightFromMountingHole pnl in
  let bottom := MountingHoleBottomY pnl + RailHeightFromMountingHole pnl in
  {| offset := gerber.Point 0 0;
     filled := true;
     points := [ gerber.Point left top; gerber.Point right top;
                 gerber.Point right bottom; gerber.Point left bottom;
                 gerber.Point left top ];
     thickness := 0.1 |}.

(** What [main] adds to the layers of the gerber file. *)
Record Layers : Set := {
  Outline : list gerber.Primitive;
  TopSilkscreen : list gerber.Primitive;
  Drill : list gerber.Primitive;
  TopCopper : list Polygon
}.

(** How a run ends: [log.Fatalf] with its format and argument, a panic, or the
    layers handed to [WriteGerber] together with the output of the logger. *)
Inductive Run : Set :=
| Fatal (format err : string)
| Aborted (msg : string)
| Handed (g : Layers) (out : list log.Message).

(** [main], from the values of the flags to the call of [WriteGerber]; the
    flag [-name] only names the files written and is left out. *)
Definition main {S : Type} `{rand.Source S}
  (format : string) (width : int) (header footer : string) (s : S) : Run * S :=
  match configure format width with
  | inr err => (Fatal "configure: %v" err, s)
  | inl pnl =>
      let prims : collector := (newprimitives, []) in
      match panelsource.GeneratePanelOutlineFeatures pnl with
      | Panic msg => (Aborted msg, s)
      | Ok outline =>
          let prims := collectPrimitives outline prims in
          let prims := collectPrimitives (panelHeaderFooter pnl header footer) prims in
          match randomLines pnl 100 s with
          | (Panic msg, s') => (Aborted msg, s')
          | (Ok lines, s') =>
              let (prims, out) := collectPrimitives lines prims in
              (Handed {| Outline := outlines prims;
                         TopSilkscreen := silkscreens prims;
                         Drill := drills prims;
                         TopCopper := [copperPour pnl] |} out, s')
          end
      end
  end.

End command.

(** * Buckets side by side *)

Module buckets.
Import blind.

(** The buckets and the log of [a], each followed by that of [b]. *)
Definition join (a b : collector) : collector :=
  ({| outlines := outlines (fst a) ++ outlines (fst b);
      drills := drills (fst a) ++ drills (fst b);
      silkscreens := silkscreens (fst a) ++ silkscreens (fst b) |},
   snd a ++ snd b).

(** The buckets of [newprimitives] and a log without messages. *)
Definition empty : collector := (newprimitives, []).

End buckets.

(** * Properties *)

Import geometry features.

(** ** Numbers *)

(** Closed comparisons of rationals are decided by evaluation. *)
Ltac q_eval := vm_compute; solve [reflexivity | discriminate].

Ltac q_differ :=
  let H := fresh in
  intro H; vm_compute in H; first [discriminate H | apply H; reflexivity].

Lemma int_wrap_id (z : Z) : is_int z -> int_wrap z = z.
Proof.
  unfold is_int, int_wrap. intros Hz.
  rewrite Z.mod_small; lia.
Qed.

(** Beyond a threshold the subtraction in [float64(hp - 3)] does not wrap. *)
Lemma int_sub_3 (hp : Z) : is_int hp -> (3 < hp)%Z -> int_sub hp 3 = (hp - 3)%Z.
Proof.
  intros Hi Hlo. unfold int_sub. apply int_wrap_id.
  unfold is_int in *. lia.
Qed.

Lemma f_ltb_false (a b : Q) : b <= a -> f_ltb a b = false.
Proof.
  intros H. unfold f_ltb. apply negb_false_iff. now apply Qle_bool_iff.
Qed.

Lemma Point_eq_refl (p : Point) : Point_eq p p.
Proof. split; reflexivity. Qed.

Lemma Forall2_Point_eq_refl (ps : list Point) : Forall2 Point_eq ps ps.
Proof. induction ps; constructor; auto using Point_eq_refl. Qed.

(** ** Text features *)

(** C10.  A text built without options has alignment [TopLeft] (the
    constant numbered 0, not [Centre]), size 14.0, rotation 0 and purpose
    [Marking]; an option, also after any other options, sets the one field it
    names to its argument and keeps every other field. *)
Theorem NewText_defaults_and_options :
  forall (origin : Point) (text : string),
    NewText origin text [] =
      {| Text.Origin := origin; Text.Alignment := TopLeft; Text.Purpose := Marking;
         Text.Text := text; Text.Size := 14.0; Text.Rotate := 0 |}
    /\ Alignment_value (Text.Alignment (NewText origin text [])) = 0%Z
    /\ Text.Alignment (NewText origin text []) <> Centre
    /\ Purpose_value (Text.Purpose (NewText origin text [])) = 0%Z
    /\ Text.Size (NewText origin text []) == DefaultTextSize
    /\ (forall a,
         NewText origin text [WithAlignment a] =
           {| Text.Origin := origin; Text.Alignment := a; Text.Purpose := Marking;
              Text.Text := text; Text.Size := 14.0; Text.Rotate := 0 |})
    /\ (forall size,
         NewText origin text [WithSize size] =
           {| Text.Origin := origin; Text.Alignment := TopLeft; Text.Purpose := Marking;
              Text.Text := text; Text.Size := size; Text.Rotate := 0 |})
    /\ (forall r,
         NewText origin text [WithRotation r] =
           {| Text.Origin := origin; Text.Alignment := TopLeft; Text.Purpose := Marking;
              Text.Text := text; Text.Size := 14.0; Text.Rotate := r |})
    /\ (forall options a,
         let before := NewText origin text options in
         NewText origin text (options ++ [WithAlignment a]) =
           {| Text.Origin := Text.Origin before; Text.Alignment := a;
              Text.Purpose := Text.Purpose before; Text.Text := Text.Text before;
              Text.Size := Text.Size before; Text.Rotate := Text.Rotate before |})
    /\ (forall options size,
         let before := NewText origin text options in
         NewText origin text (options ++ [WithSize size]) =
           {| Text.Origin := Text.Origin before; Text.Alignment := Text.Alignment before;
              Text.Purpose := Text.Purpose before; Text.Text := Text.Text before;
              Text.Size := size; Text.Rotate := Text.Rotate before |})
    /\ (forall options r,
         let before := NewText origin text options in
         NewText origin text (options ++ [WithRotation r]) =
           {| Text.Origin := Text.Origin before; Text.Alignment := Text.Alignment before;
              Text.Purpose := Text.Purpose before; Text.Text := Text.Text before;
              Text.Size := Text.Size before; Text.Rotate := r |}).
Proof.
  intros origin text.
  repeat split; try reflexivity; try discriminate;
    intros options v before; subst before; unfold NewText;
    rewrite fold_left_app; reflexivity.
Qed.

(** ** Header and footer *)

Import blind.

Lemma anchors_of_formats (p : PanelValue) :
  Point_eq {| X := panel.Width p / 2.0; Y := panel.MountingHoleTopY p |}
           (panel.HeaderLocation p)
  /\ Point_eq {| X := panel.Width p / 2.0; Y := panel.MountingHoleBottomY p |}
              (panel.FooterLocation p).
Proof.
  destruct p as [e | i | p]; cbn -[Qdiv];
    unfold Point_eq; cbn -[Qdiv]; repeat split; try reflexivity;
    unfold Qdiv; apply Qmult_comp; q_eval.
Qed.

(** C8.  For each of the formats, [panelHeaderFooter] emits the header
    text, if the header is not empty, then the footer text, if the footer is
    not empty, and nothing else: nothing for two empty strings, one text for
    a header alone, one for a footer alone.  A text is at (width / 2, Y of
    the top, respectively bottom, mounting holes), which is the header,
    respectively footer, location of the format; it is centred and of size
    16 whatever the format. *)
Theorem panelHeaderFooter_spec :
  forall (p : PanelValue) (header footer : string),
    let mk (y : float64) (s : string) :=
      AText {| Text.Origin := {| X := panel.Width p / 2.0; Y := y |};
               Text.Alignment := Centre; Text.Purpose := Marking;
               Text.Text := s; Text.Size := 16.0; Text.Rotate := 0 |} in
    panelHeaderFooter p header footer =
      (if (header =? EmptyString)%string then [] else [mk (panel.MountingHoleTopY p) header])
      ++ (if (footer =? EmptyString)%string then [] else [mk (panel.MountingHoleBottomY p) footer])
    /\ panelHeaderFooter p EmptyString EmptyString = []
    /\ (forall c s, panelHeaderFooter p (String c s) EmptyString =
                      [mk (panel.MountingHoleTopY p) (String c s)])
    /\ (forall c s, panelHeaderFooter p EmptyString (String c s) =
                      [mk (panel.MountingHoleBottomY p) (String c s)])
    /\ Point_eq {| X := panel.Width p / 2.0; Y := panel.MountingHoleTopY p |}
                (panel.HeaderLocation p)
    /\ Point_eq {| X := panel.Width p / 2.0; Y := panel.MountingHoleBottomY p |}
                (panel.FooterLocation p).
Proof.
  intros p header footer mk.
  split; [| split; [| split; [| split]]].
  - unfold panelHeaderFooter.
    destruct (header =? EmptyString)%string, (footer =? EmptyString)%string; reflexivity.
  - reflexivity.
  - reflexivity.
  - reflexivity.
  - apply anchors_of_formats.
Qed.

(** ** The classifier *)

Lemma collectPrimitives_app (xs ys : list Feature) (st : collector) :
  collectPrimitives (xs ++ ys) st = collectPrimitives ys (collectPrimitives xs st).
Proof. unfold collectPrimitives. apply fold_left_app. Qed.

(** C6.  One item changes the buckets and the log as follows, and the
    classification goes on with the items after it.  A line goes to
    [outlines] alone when it is a cutout, to [silkscreens] alone when it is a
    marking; a circle to [drills] alone, respectively [silkscreens] alone; a
    cutout text to [outlines] with exactly one more message in the log, a
    marking text to [silkscreens]; a feature of another type leaves the three
    buckets as they are and adds one message. *)
Theorem collectPrimitives_routing :
  forall (prims : primitives) (out : list log.Message),
    (forall l,
       collectPrimitives [ALine l] (prims, out) =
         match Line.Purpose l with
         | Cutout =>
             ({| outlines := outlines prims ++ [mkline l]; drills := drills prims;
                 silkscreens := silkscreens prims |}, out)
         | Marking =>
             ({| outlines := outlines prims; drills := drills prims;
                 silkscreens := silkscreens prims ++ [mkline l] |}, out)
         end)
    /\ (forall c,
       collectPrimitives [ACircle c] (prims, out) =
         match Circle.Purpose c with
         | Cutout =>
             ({| outlines := outlines prims; drills := drills prims ++ [mkcircle c];
                 silkscreens := silkscreens prims |}, out)
         | Marking =>
             ({| outlines := outlines prims; drills := drills prims;
                 silkscreens := silkscreens prims ++ [mkcircle c] |}, out)
         end)
    /\ (forall x,
       collectPrimitives [AText x] (prims, out) =
         match Text.Purpose x with
         | Cutout =>
             ({| outlines := outlines prims ++ [mktext x]; drills := drills prims;
                 silkscreens := silkscreens prims |},
              out ++ [ {| log.format :=
                            "warning: text feature in outline layer is probably an error: %v";
                          log.args := [log.OfText x] |} ])
         | Marking =>
             ({| outlines := outlines prims; drills := drills prims;
                 silkscreens := silkscreens prims ++ [mktext x] |}, out)
         end)
    /\ (forall kind purpose,
       collectPrimitives [AForeign kind purpose] (prims, out) =
         (prims,
          out ++ [ {| log.format := "warning: unsupported feature type: %s";
                      log.args := [log.OfString kind] |} ]))
    /\ (forall item rest,
       collectPrimitives (item :: rest) (prims, out) =
         collectPrimitives rest (collectPrimitives [item] (prims, out))).
Proof.
  intros prims out.
  split; [| split; [| split; [| split]]].
  - intros l. cbn. unfold Line.GetPurpose. destruct (Line.Purpose l); reflexivity.
  - intros c. cbn. unfold Circle.GetPurpose. destruct (Circle.Purpose c); reflexivity.
  - intros x. cbn. unfold Text.GetPurpose. destruct (Text.Purpose x); reflexivity.
  - intros kind purpose. reflexivity.
  - intros item rest. reflexivity.
Qed.

(** ** The outline *)

Section Outline.
Context {T : Type} `{panel.Panel T}.

(** The loop over the mounting holes, for a radius that [NewCircle]
    accepts. *)
Lemma outline_holes (radius : float64) :
  f_ltb radius 0.0 = false ->
  forall (holes : list Point) (f : list Feature),
    fold_left
      (fun acc centre =>
         f <- acc ;;
         hole <- NewCircle centre radius ;;
         let hole := Circle.SetPurpose hole Cutout in
         Ok (f ++ [ACircle hole]))
      holes (Ok f) =
    Ok (f ++ map (fun centre =>
                    ACircle {| Circle.Origin := centre; Circle.Radius := radius;
                               Circle.Purpose := Cutout |}) holes).
Proof.
  intros Hradius holes f.
  match goal with |- fold_left ?F _ _ = _ => set (step := F) end.
  revert f.
  induction holes as [| centre holes IH]; intros f; cbn [fold_left map].
  - now rewrite app_nil_r.
  - assert (E : step (Ok f) centre =
                Ok (f ++ [ACircle {| Circle.Origin := centre; Circle.Radius := radius;
                                     Circle.Purpose := Cutout |}])).
    { unfold step. cbn [bind]. unfold NewCircle. rewrite Hradius. reflexivity. }
    rewrite E, IH, <- app_assoc. reflexivity.
Qed.

Lemma outline_of_panel (p : T) :
  0 <= panel.MountingHoleDiameter p / 2.0 ->
  panelsource.GeneratePanelOutlineFeatures p =
    Ok ([ ALine {| Line.Start := panel.TopLeft p; Line.End := panel.TopRight p;
                   Line.Thickness := 0.1; Line.Purpose := Cutout |};
          ALine {| Line.Start := panel.BottomLeft p; Line.End := panel.BottomRight p;
                   Line.Thickness := 0.1; Line.Purpose := Cutout |};
          ALine {| Line.Start := panel.TopLeft p; Line.End := panel.BottomLeft p;
                   Line.Thickness := 0.1; Line.Purpose := Cutout |};
          ALine {| Line.Start := panel.TopRight p; Line.End := panel.BottomRight p;
                   Line.Thickness := 0.1; Line.Purpose := Cutout |} ]
        ++ map (fun centre =>
                  ACircle {| Circle.Origin := centre;
                             Circle.Radius := panel.MountingHoleDiameter p / 2.0;
                             Circle.Purpose := Cutout |})
               (panel.MountingHoles p)).
Proof.
  intros Hd. unfold panelsource.GeneratePanelOutlineFeatures.
  assert (Hthick : f_ltb 0.1 0.0 = false) by reflexivity.
  unfold NewLine. rewrite Hthick. cbn [bind].
  rewrite outline_holes.
  - reflexivity.
  - apply f_ltb_false. apply Qle_trans with 0; [q_eval | exact Hd].
Qed.

Lemma panelOutline_same (p : T) :
  panelOutline p = panelsource.GeneratePanelOutlineFeatures p.
Proof. reflexivity. Qed.

End Outline.

Lemma diameter_of_formats (p : PanelValue) : 0 <= panel.MountingHoleDiameter p / 2.0.
Proof. destruct p; q_eval. Qed.

(** C7.  For each of the formats the outline generator returns, without a
    panic, the top, bottom, left and right boundary lines, each a cutout
    between the corners adjusted for horizontal fit, then one cutout circle
    for each mounting hole, in their order, centred on the hole and of
    radius diameter / 2; and nothing else. *)
Theorem GeneratePanelOutlineFeatures_spec :
  forall p : PanelValue,
    let left := panel.HorizontalFit p / 2 in
    let right := panel.Width p - panel.HorizontalFit p / 2 in
    let top := panel.Height p in
    let cut (x1 y1 x2 y2 : float64) :=
      ALine {| Line.Start := {| X := x1; Y := y1 |}; Line.End := {| X := x2; Y := y2 |};
               Line.Thickness := 0.1; Line.Purpose := Cutout |} in
    let drill (centre : Point) :=
      ACircle {| Circle.Origin := centre;
                 Circle.Radius := panel.MountingHoleDiameter p / 2.0;
                 Circle.Purpose := Cutout |} in
    panelsource.GeneratePanelOutlineFeatures p =
      Ok ([ cut left top right top; cut left 0 right 0;
            cut left top left 0; cut right top right 0 ]
          ++ map drill (panel.MountingHoles p))
    /\ (exists f, panelsource.GeneratePanelOutlineFeatures p = Ok f
                  /\ List.length f = (4 + List.length (panel.MountingHoles p))%nat)
    /\ panelOutline p = panelsource.GeneratePanelOutlineFeatures p.
Proof.
  intros p left right top cut drill.
  pose proof (outline_of_panel p (diameter_of_formats p)) as E.
  split; [exact E | split; [| reflexivity]].
  eexists; split; [exact E |].
  rewrite length_app, length_map. reflexivity.
Qed.

(** ** Widths and mounting holes of the formats *)

(** The width of a panel of more than one unit, or of none. *)
Lemma Width_of_formats (p : PanelValue) :
  units p <> 1%Z ->
  panel.Width p = placement.pitch (placement.constants p) * inject_Z (units p).
Proof.
  intros Hhp. apply Z.eqb_neq in Hhp.
  destruct p as [e | i | q]; cbn in Hhp |- *;
    [unfold eurorack.Eurorack.Width | unfold intellijel.Intellijel.Width
     | unfold pulplogic.Pulplogic.Width];
    rewrite Hhp; reflexivity.
Qed.

Lemma HorizontalFit_of_formats (p : PanelValue) :
  units p <> 1%Z -> panel.HorizontalFit p == 0.25.
Proof.
  intros Hhp. apply Z.eqb_neq in Hhp.
  destruct p as [e | i | q]; cbn in Hhp |- *;
    [unfold eurorack.Eurorack.HorizontalFit | unfold intellijel.Intellijel.HorizontalFit
     | unfold pulplogic.Pulplogic.HorizontalFit];
    rewrite Hhp; q_eval.
Qed.

(** C3.  A panel of exactly one unit, in each of the formats, is 5.00 mm
    wide with horizontal fit 0.00; it has two mounting holes, and the X of
    each is width / 2, that is 2.5, and not the left offset of the format. *)
Theorem one_unit_panel :
  forall p : PanelValue,
    units p = 1%Z ->
    panel.Width p == 5.00
    /\ panel.HorizontalFit p == 0.00
    /\ List.length (panel.MountingHoles p) = 2%nat
    /\ Forall (fun hole =>
                 X hole == panel.Width p / 2
                 /\ X hole == 2.5
                 /\ ~ X hole == placement.leftOffset (placement.constants p))
              (panel.MountingHoles p).
Proof.
  intros p Hhp.
  destruct p as [[hp] | [hp] | [hp]]; cbn in Hhp; subst hp;
    (split; [| split; [| split]]);
    [ q_eval | q_eval | reflexivity | | q_eval | q_eval | reflexivity |
      | q_eval | q_eval | reflexivity | ];
    repeat constructor; try q_eval; q_differ.
Qed.

Lemma one_unit_panel_witness :
  units (OfEurorack (eurorack.NewEurorack 1)) = 1%Z
  /\ panel.Width (OfEurorack (eurorack.NewEurorack 1)) == 5.00.
Proof.
  split; [reflexivity |].
  apply (one_unit_panel (OfEurorack (eurorack.NewEurorack 1))). reflexivity.
Defined.

(** C4.  In each of the formats and for every width, [MountingHoles]
    returns four points when the width is beyond the threshold of the format
    (8 for Eurorack, 6 for Intellijel and for Pulplogic) and two points
    otherwise; their Y coordinates are the bottom and the top constant of the
    format, whatever the width. *)
Theorem MountingHoles_count :
  forall p : PanelValue,
    let c := placement.constants p in
    List.length (panel.MountingHoles p) =
      (if (units p >? placement.threshold c)%Z then 4 else 2)%nat
    /\ map Y (panel.MountingHoles p) =
         (if (units p >? placement.threshold c)%Z
          then [placement.bottomY c; placement.topY c;
                placement.bottomY c; placement.topY c]
          else [placement.bottomY c; placement.topY c])
    /\ placement.threshold c =
         match p with OfEurorack _ => 8 | OfIntellijel _ => 6 | OfPulplogic _ => 6 end%Z
    /\ placement.bottomY c = panel.MountingHoleBottomY p
    /\ placement.topY c = panel.MountingHoleTopY p.
Proof.
  intros p c. subst c.
  destruct p as [[hp] | [hp] | [hp]]; cbn;
    [ unfold eurorack.Eurorack.MountingHoles
    | unfold intellijel.Intellijel.MountingHoles
    | unfold pulplogic.Pulplogic.MountingHoles ]; cbn;
    match goal with |- context [(hp >? ?t)%Z] => destruct (hp >? t)%Z end;
    repeat split; reflexivity.
Qed.

(** C5.  A Eurorack panel of width 10, beyond the threshold 8, has four
    mounting holes: the left pair at X = 7.5, the right pair at
    X = 7.5 + 5.08 * (10 - 3) = 43.06, both pairs at Y = 3.00 and 125.5;
    in exact arithmetic and in binary64 alike. *)
Theorem Eurorack_10_MountingHoles :
  Forall2 Point_eq
    (eurorack.Eurorack.MountingHoles (eurorack.NewEurorack 10))
    [ {| X := 7.5; Y := 3.00 |}; {| X := 7.5; Y := 125.5 |};
      {| X := 43.06; Y := 3.00 |}; {| X := 43.06; Y := 125.5 |} ]
  /\ List.length (eurorack.Eurorack.MountingHoles (eurorack.NewEurorack 10)) = 4%nat
  /\ (10 >? eurorack.ExtraMountingHolesThreshold)%Z = true
  /\ eurorack.ExtraMountingHolesThreshold = 8%Z
  /\ 7.5 + 5.08 * inject_Z (10 - 3) == 43.06
  /\ binary64.MountingHoles 10 =
       [ (7.5, 3.00); (7.5, 125.5); (43.06, 3.00); (43.06, 125.5) ]%float.
Proof.
  repeat split; try reflexivity.
  repeat constructor; q_eval.
Qed.

(** ** The placement rule *)

Lemma Eurorack_follows_rule (hp : int) :
  is_int hp ->
  Forall2 Point_eq (eurorack.Eurorack.MountingHoles (eurorack.NewEurorack hp))
                   (placement.rule placement.of_eurorack hp).
Proof.
  intros Hint.
  unfold placement.rule, placement.holes, placement.right_of_left, placement.width,
    eurorack.Eurorack.MountingHoles, eurorack.Eurorack.Width, eurorack.NewEurorack.
  cbn [eurorack.Eurorack.HP placement.pitch placement.leftOffset placement.bottomY
       placement.topY placement.threshold placement.of_eurorack].
  destruct (hp >? eurorack.ExtraMountingHolesThreshold)%Z eqn:Ewide.
  - apply Z.gtb_lt in Ewide. unfold eurorack.ExtraMountingHolesThreshold in Ewide.
    rewrite int_sub_3 by (auto; lia).
    destruct (Z.eqb_spec hp 1) as [-> | _]; [lia |].
    cbn [app]. apply Forall2_Point_eq_refl.
  - destruct (Z.eqb_spec hp 1) as [-> | _]; cbn [app].
    + repeat constructor; q_eval.
    + apply Forall2_Point_eq_refl.
Qed.

Lemma Intellijel_follows_rule (hp : int) :
  is_int hp ->
  Forall2 Point_eq (intellijel.Intellijel.MountingHoles (intellijel.NewIntellijel hp))
                   (placement.rule placement.of_intellijel hp).
Proof.
  intros Hint.
  unfold placement.rule, placement.holes, placement.right_of_left, placement.width,
    intellijel.Intellijel.MountingHoles, intellijel.Intellijel.Width,
    intellijel.NewIntellijel.
  cbn [intellijel.Intellijel.HP placement.pitch placement.leftOffset placement.bottomY
       placement.topY placement.threshold placement.of_intellijel].
  destruct (hp >? intellijel.ExtraMountingHolesThreshold)%Z eqn:Ewide.
  - apply Z.gtb_lt in Ewide. unfold intellijel.ExtraMountingHolesThreshold in Ewide.
    rewrite int_sub_3 by (auto; lia).
    destruct (Z.eqb_spec hp 1) as [-> | _]; [lia |].
    cbn [app]. apply Forall2_Point_eq_refl.
  - destruct (Z.eqb_spec hp 1) as [-> | _]; cbn [app].
    + repeat constructor; q_eval.
    + apply Forall2_Point_eq_refl.
Qed.

(** Pulplogic places the right pair at its right offset from the right
    edge. *)
Lemma Pulplogic_placement (hp : int) :
  Forall2 Point_eq
    (pulplogic.Pulplogic.MountingHoles (pulplogic.NewPulplogic hp))
    (placement.holes placement.of_pulplogic
       (placement.width placement.of_pulplogic hp - pulplogic.MountingHolesRightOffset)
       hp).
Proof.
  unfold placement.holes, placement.width,
    pulplogic.Pulplogic.MountingHoles, pulplogic.Pulplogic.Width,
    pulplogic.NewPulplogic.
  cbn [pulplogic.Pulplogic.HP placement.pitch placement.leftOffset placement.bottomY
       placement.topY placement.threshold placement.of_pulplogic].
  destruct (hp >? pulplogic.ExtraMountingHolesThreshold)%Z eqn:Ewide;
    destruct (Z.eqb_spec hp 1) as [-> | _]; cbn [app];
    try apply Forall2_Point_eq_refl;
    repeat constructor; q_eval.
Qed.

(** The right offset of Pulplogic is one pitch: its right pair is at the
    left offset plus the pitch times the units less two, one pitch to the
    right of the formula of the rule. *)
Lemma Pulplogic_right_pair (hp : int) :
  hp <> 1%Z ->
  placement.width placement.of_pulplogic hp - pulplogic.MountingHolesRightOffset
  == placement.leftOffset placement.of_pulplogic
     + placement.pitch placement.of_pulplogic * inject_Z (hp - 2).
Proof.
  intros Hhp. unfold placement.width.
  destruct (Z.eqb_spec hp 1) as [E | _]; [contradiction |].
  cbn. unfold Z.sub. rewrite inject_Z_plus.
  unfold pulplogic.MountingHolesRightOffset, pulplogic.MountingHolesLeftOffset,
    pulplogic.HP, pulplogic.inch, eurorack.HP.
  change (inject_Z (- (2))) with (- (2)). lra.
Qed.

(** C9, as the code has it.  For every width, the mounting holes of
    Eurorack and of Intellijel are those of the rule, with the constants of
    the format.  Those of Pulplogic follow its left pair, its one-unit case
    and its threshold, but the right pair is at the width less the right
    offset of the format, which is the left offset plus the pitch times the
    units less two and not less three. *)
Theorem MountingHoles_follow_placement :
  forall hp : int,
    is_int hp ->
    Forall2 Point_eq (eurorack.Eurorack.MountingHoles (eurorack.NewEurorack hp))
                     (placement.rule placement.of_eurorack hp)
    /\ Forall2 Point_eq
         (intellijel.Intellijel.MountingHoles (intellijel.NewIntellijel hp))
         (placement.rule placement.of_intellijel hp)
    /\ Forall2 Point_eq
         (pulplogic.Pulplogic.MountingHoles (pulplogic.NewPulplogic hp))
         (placement.holes placement.of_pulplogic
            (placement.width placement.of_pulplogic hp
             - pulplogic.MountingHolesRightOffset) hp)
    /\ (hp <> 1%Z ->
        placement.width placement.of_pulplogic hp - pulplogic.MountingHolesRightOffset
        == placement.leftOffset placement.of_pulplogic
           + placement.pitch placement.of_pulplogic * inject_Z (hp - 2)).
Proof.
  intros hp Hint.
  split; [now apply Eurorack_follows_rule |].
  split; [now apply Intellijel_follows_rule |].
  split; [apply Pulplogic_placement | apply Pulplogic_right_pair].
Qed.

Lemma MountingHoles_follow_placement_witness :
  is_int 10
  /\ Forall2 Point_eq (eurorack.Eurorack.MountingHoles (eurorack.NewEurorack 10))
                      (placement.rule placement.of_eurorack 10).
Proof.
  assert (Hint : is_int 10) by (unfold is_int; lia).
  split; [exact Hint |].
  apply (MountingHoles_follow_placement 10 Hint).
Defined.

(** C9 with one formula for the right pair fails for Pulplogic: at width 7
    the right pair of the code is at X = 30.48, that of the rule with the
    constants of Pulplogic at X = 25.4. *)
Lemma Pulplogic_departs_from_rule :
  ~ Forall2 Point_eq
      (pulplogic.Pulplogic.MountingHoles (pulplogic.NewPulplogic 7))
      (placement.rule placement.of_pulplogic 7).
Proof.
  intros H.
  inversion H as [| a b la lb _ H1]; subst.
  inversion H1 as [| a1 b1 la1 lb1 _ H2]; subst.
  inversion H2 as [| a2 b2 la2 lb2 [Hx _] _]; subst.
  vm_compute in Hx. discriminate Hx.
Qed.

(** No table of constants makes the rule, with its formula for the right
    pair, agree with Pulplogic at the widths 2, 7 and 8. *)
Lemma Pulplogic_fits_no_constants :
  ~ exists c : placement.Constants,
      forall hp : int,
        Forall2 Point_eq
          (pulplogic.Pulplogic.MountingHoles (pulplogic.NewPulplogic hp))
          (placement.rule c hp).
Proof.
  intros [c Hc].
  pose proof (Hc 2%Z) as H2. pose proof (Hc 7%Z) as H7. pose proof (Hc 8%Z) as H8.
  unfold placement.rule, placement.holes, placement.right_of_left in H2, H7, H8.
  cbn [Z.eqb Pos.eqb] in H2, H7, H8.
  inversion H2 as [| a b la lb [HL _] _]; subst. clear H2.
  assert (W7 : (7 >? placement.threshold c)%Z = true).
  { destruct (7 >? placement.threshold c)%Z; [reflexivity |].
    inversion H7 as [| a b la lb _ T1]; subst.
    inversion T1 as [| a1 b1 la1 lb1 _ T2]; subst. inversion T2. }
  assert (W8 : (8 >? placement.threshold c)%Z = true).
  { apply Z.gtb_lt in W7. apply Z.gtb_lt. lia. }
  rewrite W7 in H7. rewrite W8 in H8.
  inversion H7 as [| a b la lb _ T1]; subst.
  inversion T1 as [| a1 b1 la1 lb1 _ T2]; subst.
  inversion T2 as [| a2 b2 la2 lb2 [H7x _] _]; subst.
  inversion H8 as [| a b la lb _ U1]; subst.
  inversion U1 as [| a1 b1 la1 lb1 _ U2]; subst.
  inversion U2 as [| a2 b2 la2 lb2 [H8x _] _]; subst.
  cbn in HL, H7x, H8x.
  unfold pulplogic.MountingHolesRightOffset, pulplogic.MountingHolesLeftOffset,
    pulplogic.HP, pulplogic.inch, eurorack.HP, float64_of_int, inject_Z
    in HL, H7x, H8x.
  lra.
Qed.

(** ** The outline tolerance *)

(** A choice of two X coordinates passes from a list of points to a list of
    the same locations. *)
Lemma Forall_X_of_Point_eq (u v : float64) (ps qs : list Point) :
  Forall2 Point_eq ps qs ->
  Forall (fun q => X q == u \/ X q == v) qs ->
  Forall (fun q => X q == u \/ X q == v) ps.
Proof.
  induction 1 as [| a b ps qs [Hx _] _ IH]; intros Hq; [constructor |].
  inversion Hq as [| b' qs' Hb Hqs]; subst.
  constructor; [| now apply IH].
  destruct Hb as [Hb | Hb]; [left | right]; now rewrite Hx.
Qed.

(** C2.  In each of the formats and for every width of two units or more:
    the width of the panel is the pitch of the format, 5.08, times the
    units; the left edge of the outline is at horizontal fit / 2 and the
    right edge at the width less horizontal fit / 2, and these are the X
    coordinates of the four outline lines; the mounting holes are at the
    left offset or at the place of the right pair of the format, and the
    header and footer locations at half the width, all without any share
    of the horizontal fit. *)
Theorem outline_tolerance :
  forall p : PanelValue,
    is_int (units p) ->
    (2 <= units p)%Z ->
    let c := placement.constants p in
    let nominal := placement.pitch c * inject_Z (units p) in
    panel.Width p == nominal
    /\ placement.pitch c == 5.08
    /\ panel.LeftX p == panel.HorizontalFit p / 2
    /\ panel.RightX p == panel.Width p - panel.HorizontalFit p / 2
    /\ panel.HorizontalFit p == 0.25
    /\ (exists drills,
          panelsource.GeneratePanelOutlineFeatures p =
            Ok ([ ALine {| Line.Start := {| X := panel.LeftX p; Y := panel.Height p |};
                           Line.End := {| X := panel.RightX p; Y := panel.Height p |};
                           Line.Thickness := 0.1; Line.Purpose := Cutout |};
                  ALine {| Line.Start := {| X := panel.LeftX p; Y := 0 |};
                           Line.End := {| X := panel.RightX p; Y := 0 |};
                           Line.Thickness := 0.1; Line.Purpose := Cutout |};
                  ALine {| Line.Start := {| X := panel.LeftX p; Y := panel.Height p |};
                           Line.End := {| X := panel.LeftX p; Y := 0 |};
                           Line.Thickness := 0.1; Line.Purpose := Cutout |};
                  ALine {| Line.Start := {| X := panel.RightX p; Y := panel.Height p |};
                           Line.End := {| X := panel.RightX p; Y := 0 |};
                           Line.Thickness := 0.1; Line.Purpose := Cutout |} ]
                ++ drills)
          /\ drills =
               map (fun centre =>
                      ACircle {| Circle.Origin := centre;
                                 Circle.Radius := panel.MountingHoleDiameter p / 2.0;
                                 Circle.Purpose := Cutout |})
                   (panel.MountingHoles p))
    /\ Forall2 Point_eq (panel.MountingHoles p)
                        (placement.holes c (placement.right_of p) (units p))
    /\ Forall (fun hole => X hole == placement.leftOffset c
                           \/ X hole == placement.right_of p)
              (panel.MountingHoles p)
    /\ X (panel.HeaderLocation p) == nominal / 2
    /\ X (panel.FooterLocation p) == nominal / 2.
Proof.
  intros p Hint Hhp c nominal.
  assert (Hne : units p <> 1%Z) by lia.
  pose proof (Width_of_formats p Hne) as HW. fold c in HW. fold nominal in HW.
  assert (Hholes : Forall2 Point_eq (panel.MountingHoles p)
                     (placement.holes c (placement.right_of p) (units p))).
  { subst c. destruct p as [[hp] | [hp] | [hp]]; cbn in Hint |- *.
    - now apply Eurorack_follows_rule.
    - now apply Intellijel_follows_rule.
    - apply Pulplogic_placement. }
  split; [rewrite HW; reflexivity |].
  split; [subst c; destruct p; q_eval |].
  split; [reflexivity |].
  split; [reflexivity |].
  split; [now apply HorizontalFit_of_formats |].
  split.
  { eexists; split; [| reflexivity].
    apply (outline_of_panel p (diameter_of_formats p)). }
  split; [exact Hholes |].
  split.
  { apply (Forall_X_of_Point_eq _ _ _ _ Hholes).
    unfold placement.holes.
    destruct (Z.eqb_spec (units p) 1) as [E | _]; [contradiction |].
    destruct (units p >? placement.threshold c)%Z; cbn [app];
      repeat (apply Forall_cons || apply Forall_nil); cbn [X];
      first [left; reflexivity | right; reflexivity]. }
  assert (Hhalf : forall w, w == nominal -> w / 2.0 == nominal / 2).
  { intros w Ew. rewrite Ew. unfold Qdiv. apply Qmult_comp; [reflexivity | q_eval]. }
  split.
  - destruct p as [e | i | q]; cbn [panel.HeaderLocation PanelValue_Panel dispatch X
      eurorack.Eurorack_Panel intellijel.Intellijel_Panel pulplogic.Pulplogic_Panel
      eurorack.Eurorack.HeaderLocation intellijel.Intellijel.HeaderLocation
      pulplogic.Pulplogic.HeaderLocation];
      [ rewrite <- HW; reflexivity | apply Hhalf; rewrite <- HW; reflexivity
        | apply Hhalf; rewrite <- HW; reflexivity ].
  - destruct p as [e | i | q]; cbn [panel.FooterLocation PanelValue_Panel dispatch X
      eurorack.Eurorack_Panel intellijel.Intellijel_Panel pulplogic.Pulplogic_Panel
      eurorack.Eurorack.FooterLocation intellijel.Intellijel.FooterLocation
      pulplogic.Pulplogic.FooterLocation];
      [ rewrite <- HW; reflexivity | apply Hhalf; rewrite <- HW; reflexivity
        | apply Hhalf; rewrite <- HW; reflexivity ].
Qed.

Lemma outline_tolerance_witness :
  is_int (units (OfPulplogic (pulplogic.NewPulplogic 8)))
  /\ (2 <= units (OfPulplogic (pulplogic.NewPulplogic 8)))%Z
  /\ panel.Width (OfPulplogic (pulplogic.NewPulplogic 8))
     == placement.pitch placement.of_pulplogic * inject_Z 8.
Proof.
  assert (Hint : is_int (units (OfPulplogic (pulplogic.NewPulplogic 8))))
    by (unfold is_int; cbn; lia).
  assert (Hhp : (2 <= units (OfPulplogic (pulplogic.NewPulplogic 8)))%Z)
    by (cbn; lia).
  split; [exact Hint | split; [exact Hhp |]].
  apply (outline_tolerance (OfPulplogic (pulplogic.NewPulplogic 8)) Hint Hhp).
Defined.

(** ** The decorative lines *)

(** The replayed tapes keep the promises of the library. *)
Lemma Tape_lawful : rand.Lawful rand.Tape_ok.
Proof.
  split.
  - intros [fs is_] Hok. unfold rand.Tape_ok in *. cbn in *.
    destruct fs as [| r fs]; cbn.
    + split; [q_eval | split; [q_eval | constructor]].
    + inversion Hok as [| r' fs' [Hlo Hhi] Hrest]; subst. auto.
  - intros n [fs is_] Hn Hok. cbn. split; [| exact Hok].
    apply Z.mod_pos_bound. exact Hn.
Qed.

Section DecorativeLines.
Context {T : Type} `{panel.Panel T} {S : Type} `{rand.Source S}.
Variable inv : S -> Prop.
Hypothesis source_lawful : rand.Lawful inv.
Variable p : T.
Hypothesis room_x : 0 <= panel.Width p - panel.HorizontalFit p * 2.0.
Hypothesis room_y : 0 <= panel.Height p - interior.endheight p * 2.0.

Lemma scaled_draw (r space : Q) :
  0 <= r -> r < 1 -> 0 <= space -> 0 <= r * space /\ r * space <= space.
Proof.
  intros Hlo Hhi Hs. split.
  - now apply Qmult_le_0_compat.
  - rewrite <- (Qmult_1_l space) at 2.
    apply Qmult_le_compat_r; [now apply Qlt_le_weak | exact Hs].
Qed.

Lemma rxy_inside (s : S) :
  inv s ->
  interior.right_of_left_inset p (fst (rxy p s)) /\ inv (snd (rxy p s)).
Proof.
  intros Hs. unfold rxy.
  destruct (rand.Float64_range inv source_lawful s Hs) as (Hlo1 & Hhi1 & Hs1).
  destruct (rand.Float64 s) as [r1 s1]. cbn [fst snd] in *.
  destruct (rand.Float64_range inv source_lawful s1 Hs1) as (Hlo2 & Hhi2 & Hs2).
  destruct (rand.Float64 s1) as [r2 s2]. cbn [fst snd] in *.
  split; [| exact Hs2].
  destruct (scaled_draw r1 _ Hlo1 Hhi1 room_x) as [Hx0 Hx1].
  destruct (scaled_draw r2 _ Hlo2 Hhi2 room_y) as [Hy0 Hy1].
  unfold interior.right_of_left_inset, interior.between_rails, interior.endheight in *.
  cbn [X Y].
  set (dx := r1 * _) in *. set (dy := r2 * _) in *.
  repeat split; lra.
Qed.

Lemma thickness_of_draw (i : Z) :
  (0 <= i < 3)%Z ->
  interior.thickness_ok (0.1 * float64_of_int i) /\ 0.0 <= 0.1 * float64_of_int i.
Proof.
  intros Hi.
  assert (Ecase : i = 0%Z \/ i = 1%Z \/ i = 2%Z) by lia.
  unfold interior.thickness_ok.
  destruct Ecase as [-> | [-> | ->]]; split;
    first [q_eval | left; q_eval | right; left; q_eval | right; right; q_eval].
Qed.

Lemma randomLines_loop_decorative (k : nat) :
  forall (lines : list Feature) (s : S),
    inv s ->
    Forall (interior.decorative p) lines ->
    exists lines' s',
      randomLines_loop p k lines s = (Ok lines', s')
      /\ List.length lines' = (List.length lines + k)%nat
      /\ Forall (interior.decorative p) lines'
      /\ inv s'.
Proof.
  induction k as [| k IH]; intros lines s Hs Hlines; cbn [randomLines_loop].
  - exists lines, s. rewrite Nat.add_0_r. auto.
  - destruct (rxy_inside s Hs) as [Ha Hs1].
    destruct (rxy p s) as [a s1]. cbn [fst snd] in *.
    destruct (rxy_inside s1 Hs1) as [Hb Hs2].
    destruct (rxy p s1) as [b s2]. cbn [fst snd] in *.
    assert (H3 : (0 < 3)%Z) by lia.
    destruct (rand.Intn_range inv source_lawful 3%Z s2 H3 Hs2) as [Hi Hs3].
    destruct (rand.Intn 3%Z s2) as [i s3]. cbn [fst snd] in *.
    destruct (thickness_of_draw i Hi) as [Hthick Hpos].
    unfold NewLine. rewrite (f_ltb_false _ _ Hpos).
    destruct (IH (lines ++ [ALine {| Line.Start := a; Line.End := b;
                                     Line.Thickness := 0.1 * float64_of_int i;
                                     Line.Purpose := Marking |}]) s3 Hs3)
      as (lines' & s' & Eloop & Elen & Hall & Hs').
    { apply Forall_app. split; [exact Hlines |].
      constructor; [| constructor].
      eexists; repeat split; cbn; auto; apply Ha || apply Hb. }
    exists lines', s'. repeat split; auto.
    rewrite Elen, length_app. cbn. lia.
Qed.

(** For every count and every lawful source, [randomLines] returns, without
    a panic, as many lines as asked for (none for a negative count); both end
    points of each are between the rails and between twice the horizontal
    fit and the width of the panel, its thickness is 0.0, 0.1 or 0.2 and its
    purpose is left at [Marking]. *)
Lemma randomLines_decorative (n : int) (s : S) :
  inv s ->
  exists lines s',
    randomLines p n s = (Ok lines, s')
    /\ List.length lines = Z.to_nat n
    /\ Forall (interior.decorative p) lines
    /\ inv s'.
Proof.
  intros Hs. unfold randomLines.
  destruct (randomLines_loop_decorative (Z.to_nat n) [] s Hs (Forall_nil _))
    as (lines & s' & E & Elen & Hall & Hs').
  exists lines, s'. auto.
Qed.

End DecorativeLines.

(** The three formats leave room between the insets, from one unit on. *)
Lemma formats_have_room (p : PanelValue) :
  (1 <= units p)%Z ->
  0 <= panel.Width p - panel.HorizontalFit p * 2.0
  /\ 0 <= panel.Height p - interior.endheight p * 2.0.
Proof.
  intros Hhp. split; [| destruct p; q_eval].
  destruct (Z.eq_dec (units p) 1) as [E | Hne].
  - destruct p as [[hp] | [hp] | [hp]]; cbn in E; subst hp; q_eval.
  - rewrite (HorizontalFit_of_formats p Hne), (Width_of_formats p Hne).
    assert (Hq : 2 <= inject_Z (units p)).
    { change 2 with (inject_Z 2). rewrite <- Zle_Qle. lia. }
    assert (Hpitch : placement.pitch (placement.constants p) == 5.08)
      by (destruct p; q_eval).
    rewrite Hpitch. lra.
Qed.

(** The decorative lines of the three formats, for every width from one unit
    on, every count and every tape of draws. *)
Lemma randomLines_of_formats (p : PanelValue) (n : int) (tape : rand.Tape) :
  (1 <= units p)%Z ->
  rand.Tape_ok tape ->
  exists lines tape',
    randomLines p n tape = (Ok lines, tape')
    /\ List.length lines = Z.to_nat n
    /\ Forall (interior.decorative p) lines.
Proof.
  intros Hhp Hok.
  destruct (formats_have_room p Hhp) as [Hx Hy].
  destruct (randomLines_decorative rand.Tape_ok Tape_lawful p Hx Hy n tape Hok)
    as (lines & tape' & E & Elen & Hall & _).
  exists lines, tape'. auto.
Qed.

(** C1, at the input where it fails.  On a Eurorack panel of 8 units
    (width 40.64, horizontal fit 0.25) the safe interior ends on the right at
    X = 40.14.  With the draws 0.99, 0.5, 0.25, 0.75 for the coordinates and
    1 for the thickness, [randomLines] returns one line of thickness 0.1 that
    starts at X = 40.2386: between the rails, but to the right of the safe
    interior, and its other end point is inside. *)
Theorem randomLines_leaves_safe_interior :
  let p := OfEurorack (eurorack.NewEurorack 8) in
  let tape := {| rand.floats := [0.99; 0.5; 0.25; 0.75]; rand.ints := [1%Z] |} in
  rand.Tape_ok tape
  /\ exists l tape',
       randomLines p 1 tape = (Ok [ALine l], tape')
       /\ Point_eq (Line.Start l) {| X := 40.2386; Y := 64.25 |}
       /\ Point_eq (Line.End l) {| X := 10.535; Y := 92.375 |}
       /\ Line.Thickness l == 0.1
       /\ panel.Width p - panel.HorizontalFit p * 2 == 40.14
       /\ interior.between_rails p (Line.Start l)
       /\ ~ X (Line.Start l) <= panel.Width p - panel.HorizontalFit p * 2
       /\ ~ interior.safe p (Line.Start l)
       /\ interior.safe p (Line.End l).
Proof.
  intros p tape. split.
  - repeat constructor; q_eval.
  - eexists; eexists. split; [vm_compute; reflexivity |].
    assert (Hout : ~ 40.2386 <= panel.Width p - panel.HorizontalFit p * 2) by q_differ.
    repeat match goal with |- _ /\ _ => split end;
      try (split; q_eval); try q_eval; try exact Hout.
    + intros [[_ Hin] _]. apply Hout. exact Hin.
    + repeat split; q_eval.
Qed.

(** * Further properties of the code *)

(** ** The flags *)

(** X1.  [configure] returns a panel exactly when the width is at least 1
    and the format is one of the three names, and the panel is then that
    format built with that width.  It returns an error otherwise: a width
    below 1 is reported first, whatever the format; an unknown format only
    for a width of at least 1. *)
Theorem configure_accepts :
  forall (format : string) (width : int),
    (forall p,
       configure format width = inl p <->
       (1 <= width)%Z
       /\ ((format = "eurorack" /\ p = OfEurorack (eurorack.NewEurorack width))
           \/ (format = "intellijel"
               /\ p = OfIntellijel (intellijel.NewIntellijel width))
           \/ (format = "pulplogic"
               /\ p = OfPulplogic (pulplogic.NewPulplogic width))))
    /\ (forall err,
       configure format width = inr err <->
       ((width < 1)%Z /\ err = "width must be greater than 0")
       \/ ((1 <= width)%Z
           /\ format <> "eurorack" /\ format <> "intellijel"
           /\ format <> "pulplogic"
           /\ err = "invalid format specified")).
Proof.
  intros format width. unfold configure.
  destruct (Z.ltb_spec width 1) as [Hlt | Hge].
  - split; [intros p | intros err]; split.
    + discriminate.
    + intros [Hw _]. lia.
    + intros E. injection E as <-. left. auto.
    + intros [[_ ->] | [Hw _]]; [reflexivity | lia].
  - destruct (String.eqb_spec format "eurorack") as [-> | Ne].
    { split; [intros p | intros err]; split.
      - intros E. injection E as <-. auto.
      - intros [_ [[_ ->] | [[E _] | [E _]]]]; [reflexivity | discriminate E ..].
      - discriminate.
      - intros [[Hw _] | (_ & N & _)]; [lia | now elim N]. }
    destruct (String.eqb_spec format "intellijel") as [-> | Ni].
    { split; [intros p | intros err]; split.
      - intros E. injection E as <-. auto.
      - intros [_ [[E _] | [[_ ->] | [E _]]]]; [discriminate E | reflexivity | discriminate E].
      - discriminate.
      - intros [[Hw _] | (_ & _ & N & _)]; [lia | now elim N]. }
    destruct (String.eqb_spec format "pulplogic") as [-> | Np].
    { split; [intros p | intros err]; split.
      - intros E. injection E as <-. auto 6.
      - intros [_ [[E _] | [[E _] | [_ ->]]]]; [discriminate E .. | reflexivity].
      - discriminate.
      - intros [[Hw _] | (_ & _ & _ & N & _)]; [lia | now elim N]. }
    split; [intros p | intros err]; split.
    + discriminate.
    + intros [_ [[E _] | [[E _] | [E _]]]]; contradiction.
    + intros E. injection E as <-. right. auto 6.
    + intros [[Hw _] | (_ & _ & _ & _ & ->)]; [lia | reflexivity].
Qed.

(** ** The cut outline *)

(** X2.  For every implementation of [Panel], the cut outline is narrower
    than the nominal width by the horizontal fit in all, half of it on each
    side, and stays centred on the nominal width.  For the three formats it
    is 5.00 wide at one unit and 5.08 times the units less 0.25 otherwise. *)
Theorem outline_is_narrower_by_the_fit :
  (forall (T : Type) (H : panel.Panel T) (spec : T),
     panel.RightX spec - panel.LeftX spec == panel.Width spec - panel.HorizontalFit spec
     /\ panel.LeftX spec - 0 == panel.Width spec - panel.RightX spec
     /\ (panel.LeftX spec + panel.RightX spec) / 2 == panel.Width spec / 2)
  /\ (forall p : PanelValue,
        panel.RightX p - panel.LeftX p ==
          if (units p =? 1)%Z then 5.00 else 5.08 * inject_Z (units p) - 0.25).
Proof.
  split.
  - intros T H spec. unfold panel.RightX, panel.LeftX.
    repeat split; field.
  - intros p. unfold panel.RightX, panel.LeftX.
    destruct (Z.eqb_spec (units p) 1) as [E | Hne].
    + destruct p as [[hp] | [hp] | [hp]]; cbn in E; subst hp; q_eval.
    + rewrite (HorizontalFit_of_formats p Hne), (Width_of_formats p Hne).
      assert (Hpitch : placement.pitch (placement.constants p) == 5.08)
        by (destruct p; q_eval).
      rewrite Hpitch. field.
Qed.

(** ** Widths side by side *)



(** ** Intellijel beside Eurorack *)

(** X4.  An Intellijel 1U panel lines up with the Eurorack 3U panel of the
    same units: same width, same horizontal fit, same outline edges, and the
    X coordinates of the Eurorack mounting holes are the first of the X
    coordinates of the Intellijel ones; Intellijel has a right pair more when
    the units are 7 or 8, and only then. *)
Theorem Intellijel_lines_up_with_Eurorack :
  forall hp : int,
    let e := eurorack.NewEurorack hp in
    let i := intellijel.NewIntellijel hp in
    panel.Width i == panel.Width e
    /\ panel.HorizontalFit i == panel.HorizontalFit e
    /\ panel.LeftX i == panel.LeftX e
    /\ panel.RightX i == panel.RightX e
    /\ exists more,
         map X (panel.MountingHoles i) = map X (panel.MountingHoles e) ++ more
         /\ (more = [] <-> ~ (6 < hp <= 8)%Z).
Proof.
  intros hp e i. subst e i.
  unfold panel.RightX, panel.LeftX.
  cbn [panel.Width panel.HorizontalFit panel.MountingHoles
       eurorack.Eurorack_Panel intellijel.Intellijel_Panel].
  unfold eurorack.Eurorack.Width, intellijel.Intellijel.Width,
    eurorack.Eurorack.HorizontalFit, intellijel.Intellijel.HorizontalFit,
    eurorack.Eurorack.MountingHoles, intellijel.Intellijel.MountingHoles,
    eurorack.Eurorack.Width, intellijel.Intellijel.Width,
    eurorack.NewEurorack, intellijel.NewIntellijel.
  cbn [eurorack.Eurorack.HP intellijel.Intellijel.HP].
  unfold intellijel.ExtraMountingHolesThreshold, eurorack.ExtraMountingHolesThreshold.
  destruct (Z.eqb_spec hp 1) as [-> | Hne].
  - do 4 (split; [q_eval |]).
    exists []. split; [reflexivity |]. split; [lia | reflexivity].
  - do 4 (split; [reflexivity |]).
    destruct (hp >? 8)%Z eqn:E8; destruct (hp >? 6)%Z eqn:E6.
    + exists []. split; [reflexivity |].
      apply Z.gtb_lt in E8. split; [lia | reflexivity].
    + apply Z.gtb_lt in E8. rewrite Z.gtb_ltb in E6. apply Z.ltb_ge in E6. lia.
    + eexists. split; [reflexivity |].
      apply Z.gtb_lt in E6. rewrite Z.gtb_ltb in E8. apply Z.ltb_ge in E8.
      split; [discriminate | lia].
    + exists []. split; [reflexivity |].
      rewrite Z.gtb_ltb in E6. apply Z.ltb_ge in E6. split; [lia | reflexivity].
Qed.

(** ** The mounting holes on the panel *)

(** The mounting holes of a format are those of the placement rule, with the
    right pair where the format puts it. *)
Lemma holes_of_formats (p : PanelValue) :
  is_int (units p) ->
  Forall2 Point_eq (panel.MountingHoles p)
    (placement.holes (placement.constants p) (placement.right_of p) (units p)).
Proof.
  intros Hint. destruct p as [[hp] | [hp] | [hp]]; cbn in Hint |- *.
  - now apply Eurorack_follows_rule.
  - now apply Intellijel_follows_rule.
  - apply Pulplogic_placement.
Qed.

(** A property of locations passes from a list of points to a list of the
    same locations. *)
Lemma Forall_of_Point_eq (P : Point -> Prop) (ps qs : list Point) :
  (forall a b, Point_eq a b -> P b -> P a) ->
  Forall2 Point_eq ps qs -> Forall P qs -> Forall P ps.
Proof.
  intros HP. induction 1 as [| a b ps qs Hab _ IH]; intros Hq; [constructor |].
  inversion Hq as [| b' qs' Hb Hqs]; subst.
  constructor; [now apply (HP a b) | now apply IH].
Qed.

(** The constants of the formats, down to their decimals. *)
Ltac format_constants :=
  unfold intellijel.MountingHolesLeftOffset, intellijel.MountingHoleDiameter,
    intellijel.HP, intellijel.RailHeightFromMountingHole, intellijel.HorizontalFit,
    intellijel.MountingHoleTopY1U, intellijel.MountingHoleBottomY1U,
    intellijel.PanelHeight1U,
    pulplogic.MountingHolesLeftOffset, pulplogic.MountingHolesRightOffset,
    pulplogic.MountingHoleDiameter, pulplogic.HP, pulplogic.HorizontalFit,
    pulplogic.RailHeightFromMountingHole, pulplogic.MountingHoleTopY1U,
    pulplogic.MountingHoleBottomY1U, pulplogic.PanelHeight1U, pulplogic.inch,
    eurorack.MountingHolesLeftOffset, eurorack.MountingHoleDiameter, eurorack.HP,
    eurorack.RailHeightFromMountingHole, eurorack.HorizontalFit,
    eurorack.MountingHoleTopY3U, eurorack.MountingHoleBottomY3U,
    eurorack.PanelHeight3U in *.

Lemma inject_Z_ge (k hp : Z) : (k <= hp)%Z -> inject_Z k <= inject_Z hp.
Proof. intros H. now rewrite <- Zle_Qle. Qed.

(** The numbers of a panel value of more than one unit. *)
Lemma numbers_of_formats (p : PanelValue) :
  units p <> 1%Z ->
  panel.Width p == 5.08 * inject_Z (units p)
  /\ panel.HorizontalFit p == 0.25
  /\ panel.LeftX p == 0.125
  /\ panel.RightX p == 5.08 * inject_Z (units p) - 0.125.
Proof.
  intros Hne.
  assert (HW : panel.Width p == 5.08 * inject_Z (units p)).
  { rewrite (Width_of_formats p Hne).
    assert (Hpitch : placement.pitch (placement.constants p) == 5.08)
      by (destruct p; q_eval).
    now rewrite Hpitch. }
  pose proof (HorizontalFit_of_formats p Hne) as HF.
  unfold panel.LeftX, panel.RightX. rewrite HW, HF.
  repeat split; try reflexivity; field.
Qed.

(** The hole circle at [h], of radius [r], within the outline of [p]. *)
Lemma hole_inside_respects (p : PanelValue) (r : Q) (a b : Point) :
  Point_eq a b ->
  (panel.LeftX p <= X b - r /\ X b + r <= panel.RightX p
   /\ 0 <= Y b - r /\ Y b + r <= panel.Height p) ->
  (panel.LeftX p <= X a - r /\ X a + r <= panel.RightX p
   /\ 0 <= Y a - r /\ Y a + r <= panel.Height p).
Proof. intros [Hx Hy]. rewrite Hx, Hy. auto. Qed.

(** The right pair sits a fixed distance from the nominal right edge: 7.74
    for Eurorack and Intellijel, 5.08 for Pulplogic. *)
Lemma right_pair_of_formats (p : PanelValue) :
  units p <> 1%Z ->
  placement.right_of p == 5.08 * inject_Z (units p) - 7.74
  \/ placement.right_of p == 5.08 * inject_Z (units p) - 5.08.
Proof.
  intros Hne.
  destruct p as [[hp] | [hp] | [hp]]; [left | left | right];
    cbn; unfold placement.right_of_left, placement.width; cbn;
    try (destruct (Z.eqb_spec hp 1) as [E1 | _]; [cbn in Hne; contradiction |]);
    unfold Z.sub; try rewrite inject_Z_plus; format_constants;
    try change (inject_Z (- (3))) with (- (3)); lra.
Qed.

(** X5.  In each of the formats and for every width from one unit on, each
    mounting hole, as the circle of the hole diameter that is drilled, lies
    within the cut outline: between its left and right edges and between the
    bottom and the top of the panel. *)
Theorem mounting_holes_inside_outline :
  forall p : PanelValue,
    is_int (units p) ->
    (1 <= units p)%Z ->
    let r := panel.MountingHoleDiameter p / 2.0 in
    Forall (fun hole =>
              panel.LeftX p <= X hole - r /\ X hole + r <= panel.RightX p
              /\ 0 <= Y hole - r /\ Y hole + r <= panel.Height p)
           (panel.MountingHoles p).
Proof.
  intros p Hint Hhp r.
  apply (Forall_of_Point_eq _ _ _ (hole_inside_respects p r) (holes_of_formats p Hint)).
  destruct (Z.eq_dec (units p) 1) as [E | Hne].
  - subst r. destruct p as [[hp] | [hp] | [hp]]; cbn in E; subst hp;
      repeat constructor; q_eval.
  - destruct (numbers_of_formats p Hne) as (HW & HF & HL & HR).
    assert (H2 : 2 <= inject_Z (units p)) by (apply (inject_Z_ge 2); lia).
    assert (Hr : panel.MountingHoleDiameter p / 2.0 <= 1.6) by (destruct p; q_eval).
    assert (HLO : 5.08 <= placement.leftOffset (placement.constants p) <= 7.5)
      by (destruct p; split; q_eval).
    assert (HB : 2.9972 <= placement.bottomY (placement.constants p))
      by (destruct p; q_eval).
    assert (HT : placement.topY (placement.constants p) + 2.9972 <= panel.Height p)
      by (destruct p; q_eval).
    assert (HBT : placement.bottomY (placement.constants p)
                  <= placement.topY (placement.constants p))
      by (destruct p; q_eval).
    unfold placement.holes.
    destruct (Z.eqb_spec (units p) 1) as [E | _]; [contradiction |].
    destruct (units p >? placement.threshold (placement.constants p))%Z eqn:Ewide;
      cbn [app].
    + destruct (right_pair_of_formats p Hne) as [HRX | HRX];
        subst r;
        set (h := inject_Z (units p)) in *;
        set (d := panel.MountingHoleDiameter p / 2.0) in *;
        repeat constructor; cbn [X Y]; rewrite ?HL, ?HR, ?HRX; lra.
    + subst r.
      set (h := inject_Z (units p)) in *.
      set (d := panel.MountingHoleDiameter p / 2.0) in *.
      repeat constructor; cbn [X Y]; rewrite ?HL, ?HR; lra.
Qed.

Lemma mounting_holes_inside_outline_witness :
  is_int (units (OfIntellijel (intellijel.NewIntellijel 7)))
  /\ (1 <= units (OfIntellijel (intellijel.NewIntellijel 7)))%Z
  /\ Forall (fun hole =>
               panel.LeftX (OfIntellijel (intellijel.NewIntellijel 7))
                 <= X hole - intellijel.MountingHoleDiameter / 2.0
               /\ X hole + intellijel.MountingHoleDiameter / 2.0
                  <= panel.RightX (OfIntellijel (intellijel.NewIntellijel 7))
               /\ 0 <= Y hole - intellijel.MountingHoleDiameter / 2.0
               /\ Y hole + intellijel.MountingHoleDiameter / 2.0
                  <= panel.Height (OfIntellijel (intellijel.NewIntellijel 7)))
            (panel.MountingHoles (OfIntellijel (intellijel.NewIntellijel 7))).
Proof.
  assert (Hint : is_int (units (OfIntellijel (intellijel.NewIntellijel 7))))
    by (unfold is_int; cbn; lia).
  assert (Hhp : (1 <= units (OfIntellijel (intellijel.NewIntellijel 7)))%Z)
    by (cbn; lia).
  split; [exact Hint | split; [exact Hhp |]].
  apply (mounting_holes_inside_outline _ Hint Hhp).
Defined.

(** Linear arithmetic over the constants of the formats and the units. *)
Ltac format_arith :=
  format_constants; unfold float64_of_int in *; unfold Z.sub;
  rewrite ?inject_Z_plus; try change (inject_Z (- (3))) with (- (3)); lra.

(** The goals for the elements of a list that is written out. *)
Ltac each_element :=
  repeat first [ apply FOP_nil | apply FOP_cons | apply Forall_nil | apply Forall_cons ].

(** X6.  In each of the formats and for every width from one unit on, two
    mounting holes never overlap: of any two holes, in the order of the list,
    the later one is at least a hole diameter to the right of, or above, the
    earlier one. *)
Theorem mounting_holes_apart :
  forall p : PanelValue,
    is_int (units p) ->
    (1 <= units p)%Z ->
    let d := panel.MountingHoleDiameter p in
    ForallOrdPairs (fun a b => d <= X b - X a \/ d <= Y b - Y a)
                   (panel.MountingHoles p).
Proof.
  intros p Hint Hhp d. subst d.
  destruct p as [[hp] | [hp] | [hp]]; cbn in Hint, Hhp |- *;
    [ unfold eurorack.Eurorack.MountingHoles, eurorack.Eurorack.MountingHoleDiameter,
        eurorack.Eurorack.Width, eurorack.ExtraMountingHolesThreshold
    | unfold intellijel.Intellijel.MountingHoles,
        intellijel.Intellijel.MountingHoleDiameter, intellijel.Intellijel.Width,
        intellijel.ExtraMountingHolesThreshold
    | unfold pulplogic.Pulplogic.MountingHoles,
        pulplogic.Pulplogic.MountingHoleDiameter, pulplogic.Pulplogic.Width,
        pulplogic.ExtraMountingHolesThreshold ];
    cbn [eurorack.Eurorack.HP intellijel.Intellijel.HP pulplogic.Pulplogic.HP];
    (destruct (Z.eqb_spec hp 1) as [E | Hne];
     [ subst hp; cbn [Z.gtb Z.compare Pos.compare Pos.compare_cont];
       each_element; right; cbn [X Y]; format_arith |]);
    match goal with |- context [(hp >? ?t)%Z] => destruct (hp >? t)%Z eqn:Ewide end;
    try (apply Z.gtb_lt in Ewide; rewrite ?int_sub_3 by (auto; lia);
         assert (H7 : 7 <= inject_Z hp) by (apply (inject_Z_ge 7); lia));
    cbn [app]; each_element; cbn [X Y];
    first [ left; format_arith | right; format_arith ].
Qed.

Lemma mounting_holes_apart_witness :
  is_int (units (OfEurorack (eurorack.NewEurorack 10)))
  /\ (1 <= units (OfEurorack (eurorack.NewEurorack 10)))%Z
  /\ ForallOrdPairs
       (fun a b => eurorack.MountingHoleDiameter <= X b - X a
                   \/ eurorack.MountingHoleDiameter <= Y b - Y a)
       (panel.MountingHoles (OfEurorack (eurorack.NewEurorack 10))).
Proof.
  assert (Hint : is_int (units (OfEurorack (eurorack.NewEurorack 10))))
    by (unfold is_int; cbn; lia).
  assert (Hhp : (1 <= units (OfEurorack (eurorack.NewEurorack 10)))%Z)
    by (cbn; lia).
  split; [exact Hint | split; [exact Hhp |]].
  apply (mounting_holes_apart _ Hint Hhp).
Defined.

(** X7.  In each of the formats and for every width, each mounting hole, as
    the circle that is drilled, lies wholly in the keep-out of a rail: below
    the band between the rails or above it.  What is placed between the rails,
    as the decorative lines are, stays clear of the holes. *)
Theorem mounting_holes_under_the_rails :
  forall p : PanelValue,
    let r := panel.MountingHoleDiameter p / 2.0 in
    Forall (fun hole =>
              Y hole + r <= interior.endheight p
              \/ panel.Height p - interior.endheight p <= Y hole - r)
           (panel.MountingHoles p).
Proof.
  intros p r. subst r. unfold interior.endheight.
  destruct p as [[hp] | [hp] | [hp]]; cbn;
    [ unfold eurorack.Eurorack.MountingHoles | unfold intellijel.Intellijel.MountingHoles
      | unfold pulplogic.Pulplogic.MountingHoles ];
    match goal with |- context [(?a >? ?t)%Z] => destruct (a >? t)%Z end;
    cbn [app]; each_element; cbn [Y];
    first [ left; q_eval | right; q_eval ].
Qed.

(** ** The copper pour *)

(** X8.  For each of the formats and every width from one unit on, the
    copper pour is a filled, closed polygon of five points, the first again
    at the end: the rectangle from the left to the right edge of the cut
    outline and over the band between the rails, from the keep-out above the
    bottom holes to the keep-out below the top holes.  The rectangle is not
    empty and lies within the nominal panel. *)
Theorem copperPour_rectangle :
  forall p : PanelValue,
    (1 <= units p)%Z ->
    exists left right bottom top,
      command.copperPour p =
        {| command.offset := gerber.Point 0 0;
           command.filled := true;
           command.points :=
             [ gerber.Point left top; gerber.Point right top;
               gerber.Point right bottom; gerber.Point left bottom;
               gerber.Point left top ];
           command.thickness := 0.1 |}
      /\ left == panel.LeftX p /\ right == panel.RightX p
      /\ bottom == interior.endheight p
      /\ top == panel.Height p - interior.endheight p
      /\ 0 <= left /\ left < right /\ right <= panel.Width p
      /\ 0 < bottom /\ bottom < top /\ top < panel.Height p.
Proof.
  intros p Hhp.
  exists (panel.LeftX p), (panel.RightX p),
    (panel.MountingHoleBottomY p + panel.RailHeightFromMountingHole p),
    (panel.MountingHoleTopY p - panel.RailHeightFromMountingHole p).
  split; [reflexivity |].
  split; [reflexivity |]. split; [reflexivity |].
  unfold interior.endheight.
  assert (Hvert :
    panel.MountingHoleBottomY p + panel.RailHeightFromMountingHole p
      == panel.RailHeightFromMountingHole p + panel.MountingHoleBottomY p
    /\ panel.MountingHoleTopY p - panel.RailHeightFromMountingHole p
       == panel.Height p
          - (panel.RailHeightFromMountingHole p + panel.MountingHoleBottomY p)
    /\ 0 < panel.MountingHoleBottomY p + panel.RailHeightFromMountingHole p
    /\ panel.MountingHoleBottomY p + panel.RailHeightFromMountingHole p
       < panel.MountingHoleTopY p - panel.RailHeightFromMountingHole p
    /\ panel.MountingHoleTopY p - panel.RailHeightFromMountingHole p < panel.Height p)
    by (destruct p; repeat split; q_eval).
  destruct Hvert as (Hb & Ht & Hb0 & Hbt & Hth).
  assert (Hhoriz : 0 <= panel.LeftX p /\ panel.LeftX p < panel.RightX p
                   /\ panel.RightX p <= panel.Width p).
  { destruct (Z.eq_dec (units p) 1) as [E | Hne].
    - destruct p as [[hp] | [hp] | [hp]]; cbn in E; subst hp; repeat split; q_eval.
    - destruct (numbers_of_formats p Hne) as (HW & HF & HL & HR).
      assert (H2 : 2 <= inject_Z (units p)) by (apply (inject_Z_ge 2); lia).
      rewrite HL, HR, HW. repeat split; lra. }
  destruct Hhoriz as (Hl0 & Hlr & Hrw).
  repeat split; assumption.
Qed.

Lemma copperPour_rectangle_witness :
  (1 <= units (OfPulplogic (pulplogic.NewPulplogic 4)))%Z
  /\ exists left right bottom top,
       command.copperPour (OfPulplogic (pulplogic.NewPulplogic 4)) =
         {| command.offset := gerber.Point 0 0;
            command.filled := true;
            command.points :=
              [ gerber.Point left top; gerber.Point right top;
                gerber.Point right bottom; gerber.Point left bottom;
                gerber.Point left top ];
            command.thickness := 0.1 |}
       /\ left < right /\ bottom < top.
Proof.
  assert (Hhp : (1 <= units (OfPulplogic (pulplogic.NewPulplogic 4)))%Z)
    by (cbn; lia).
  split; [exact Hhp |].
  destruct (copperPour_rectangle _ Hhp)
    as (left & right & bottom & top & E & _ & _ & _ & _ & _ & Hlr & _ & _ & Hbt & _).
  exists left, right, bottom, top. auto.
Defined.

(** ** The classifier on lists *)

Lemma join_assoc (a b c : collector) :
  buckets.join (buckets.join a b) c = buckets.join a (buckets.join b c).
Proof.
  unfold buckets.join. cbn [fst snd outlines drills silkscreens].
  now rewrite <- !app_assoc.
Qed.

Lemma join_empty_r (a : collector) : buckets.join a buckets.empty = a.
Proof.
  destruct a as [[o d s] out]. unfold buckets.join, buckets.empty, newprimitives.
  cbn [fst snd outlines drills silkscreens]. now rewrite !app_nil_r.
Qed.

Lemma join_empty_l (a : collector) : buckets.join buckets.empty a = a.
Proof. destruct a as [[o d s] out]. reflexivity. Qed.

Lemma collectPrimitives_cons (item : Feature) (feats : list Feature) (st : collector) :
  collectPrimitives (item :: feats) st = collectPrimitives feats (collectPrimitive st item).
Proof. reflexivity. Qed.

(** One item, from any buckets, is one item from empty buckets, joined. *)
Lemma collectPrimitive_join (st : collector) (item : Feature) :
  collectPrimitive st item = buckets.join st (collectPrimitive buckets.empty item).
Proof.
  destruct st as [[o d s] out].
  destruct item as [l | x | c | kind purpose]; cbn;
    [ destruct (Purpose_eqb (Line.GetPurpose l) Cutout)
    | destruct (Purpose_eqb (Text.GetPurpose x) Cutout)
    | destruct (Purpose_eqb (Circle.GetPurpose c) Cutout) | ];
    unfold buckets.join, addoutline, addsilkscreen, adddrill, log.Printf;
    cbn [fst snd outlines drills silkscreens app];
    now rewrite ?app_nil_r.
Qed.

Lemma collectPrimitives_join (feats : list Feature) (st : collector) :
  collectPrimitives feats st = buckets.join st (collectPrimitives feats buckets.empty).
Proof.
  revert st. induction feats as [| item feats IH]; intros st.
  - cbn. now rewrite join_empty_r.
  - rewrite !collectPrimitives_cons.
    rewrite (IH (collectPrimitive st item)),
            (IH (collectPrimitive buckets.empty item)),
            (collectPrimitive_join st item), join_assoc.
    reflexivity.
Qed.

(** X9.  What [collectPrimitives] writes does not depend on what the buckets
    and the log hold already: the result from any state is that state
    followed, bucket by bucket and in the log, by the result from empty
    buckets; nothing held before is dropped or moved.  Collecting one list
    after another is collecting the two lists in one call. *)
Theorem collectPrimitives_appends :
  forall (xs ys : list Feature) (st : collector),
    collectPrimitives xs st = buckets.join st (collectPrimitives xs buckets.empty)
    /\ collectPrimitives ys (collectPrimitives xs st) = collectPrimitives (xs ++ ys) st
    /\ collectPrimitives (xs ++ ys) st =
         buckets.join st
           (buckets.join (collectPrimitives xs buckets.empty)
                         (collectPrimitives ys buckets.empty)).
Proof.
  intros xs ys st.
  split; [apply collectPrimitives_join |].
  split; [symmetry; apply collectPrimitives_app |].
  rewrite collectPrimitives_app, (collectPrimitives_join ys), (collectPrimitives_join xs).
  apply join_assoc.
Qed.

(** The count of one item. *)
Lemma collectPrimitive_counts (st : collector) (item : Feature) :
  let known (f : Feature) := match f with AForeign _ _ => false | _ => true end in
  let warned (f : Feature) :=
    match f with
    | AText x => Purpose_eqb (Text.Purpose x) Cutout
    | AForeign _ _ => true
    | _ => false
    end in
  let size (c : collector) :=
    (List.length (outlines (fst c)) + List.length (drills (fst c))
     + List.length (silkscreens (fst c)))%nat in
  size (collectPrimitive st item) = (size st + if known item then 1 else 0)%nat
  /\ List.length (snd (collectPrimitive st item)) =
       (List.length (snd st) + if warned item then 1 else 0)%nat.
Proof.
  destruct st as [[o d s] out].
  destruct item as [l | x | c | kind purpose]; cbn;
    [ unfold Line.GetPurpose; destruct (Line.Purpose l)
    | unfold Text.GetPurpose; destruct (Text.Purpose x)
    | unfold Circle.GetPurpose; destruct (Circle.Purpose c) | ];
    cbn; unfold log.Printf; rewrite ?length_app; cbn; split; lia.
Qed.

(** X10.  [collectPrimitives] places every line, circle and text in exactly
    one bucket and no other feature in any: the three buckets together grow
    by the number of lines, circles and texts of the list.  The log grows by
    one message for each cutout text and each feature of another type, and
    by nothing else. *)
Theorem collectPrimitives_counts :
  forall (feats : list Feature) (st : collector),
    let known (f : Feature) := match f with AForeign _ _ => false | _ => true end in
    let warned (f : Feature) :=
      match f with
      | AText x => Purpose_eqb (Text.Purpose x) Cutout
      | AForeign _ _ => true
      | _ => false
      end in
    let size (c : collector) :=
      (List.length (outlines (fst c)) + List.length (drills (fst c))
       + List.length (silkscreens (fst c)))%nat in
    size (collectPrimitives feats st) =
      (size st + List.length (filter known feats))%nat
    /\ List.length (snd (collectPrimitives feats st)) =
         (List.length (snd st) + List.length (filter warned feats))%nat.
Proof.
  intros feats st known warned size. subst known warned size. cbv beta.
  revert st. induction feats as [| item feats IH]; intros st.
  - cbn. split; lia.
  - rewrite collectPrimitives_cons.
    destruct (IH (collectPrimitive st item)) as [IHs IHl].
    destruct (collectPrimitive_counts st item) as [Hs Hl]. cbv beta zeta in Hs, Hl.
    rewrite IHl, Hl.
    destruct item as [l | x | c | kind purpose]; cbn [filter] in *;
      try destruct (Purpose_eqb (Text.Purpose x) Cutout);
      cbn [List.length] in *; split; lia.
Qed.

(** One item adds circles only to the drills, and none to the outlines. *)
Lemma collectPrimitive_kinds (st : collector) (item : Feature) :
  let round (q : gerber.Primitive) :=
    match q with gerber.Circle _ _ => True | _ => False end in
  Forall round (drills (fst st)) ->
  Forall (fun q => ~ round q) (outlines (fst st)) ->
  Forall round (drills (fst (collectPrimitive st item)))
  /\ Forall (fun q => ~ round q) (outlines (fst (collectPrimitive st item))).
Proof.
  intros round Hd Ho. destruct st as [[o d s] out]. cbn [fst drills outlines] in *.
  destruct item as [l | x | c | kind purpose]; cbn;
    [ destruct (Purpose_eqb (Line.GetPurpose l) Cutout)
    | destruct (Purpose_eqb (Text.GetPurpose x) Cutout)
    | destruct (Purpose_eqb (Circle.GetPurpose c) Cutout) | ];
    cbn; split; auto;
    apply Forall_app; split; auto; constructor; cbn; auto.
Qed.

(** X11.  From empty buckets, [collectPrimitives] fills the drill bucket with
    circles only, one for each cutout circle of the list, and never puts a
    circle in the outline bucket, whatever its size: lines and texts alone
    go there. *)
Theorem collectPrimitives_drills_are_circles :
  forall feats : list Feature,
    let round (q : gerber.Primitive) :=
      match q with gerber.Circle _ _ => True | _ => False end in
    let drilled (f : Feature) :=
      match f with
      | ACircle c => Purpose_eqb (Circle.Purpose c) Cutout
      | _ => false
      end in
    let q := fst (collectPrimitives feats buckets.empty) in
    Forall round (drills q)
    /\ Forall (fun x => ~ round x) (outlines q)
    /\ List.length (drills q) = List.length (filter drilled feats).
Proof.
  intros feats round drilled q. subst q.
  assert (Hgen : forall st,
    Forall round (drills (fst st)) ->
    Forall (fun x => ~ round x) (outlines (fst st)) ->
    Forall round (drills (fst (collectPrimitives feats st)))
    /\ Forall (fun x => ~ round x) (outlines (fst (collectPrimitives feats st)))
    /\ List.length (drills (fst (collectPrimitives feats st))) =
         (List.length (drills (fst st)) + List.length (filter drilled feats))%nat).
  { induction feats as [| item feats IH]; intros st Hd Ho.
    - cbn. repeat split; auto; lia.
    - rewrite collectPrimitives_cons. cbn [filter].
      destruct (collectPrimitive_kinds st item Hd Ho) as [Hd' Ho'].
      destruct (IH (collectPrimitive st item) Hd' Ho') as (H1 & H2 & H3).
      repeat split; auto. rewrite H3.
      destruct st as [[o d s] out].
      destruct item as [l | x | c | kind purpose]; cbn;
        [ destruct (Purpose_eqb (Line.GetPurpose l) Cutout)
        | destruct (Purpose_eqb (Text.GetPurpose x) Cutout)
        | unfold Circle.GetPurpose; destruct (Purpose_eqb (Circle.Purpose c) Cutout) | ];
        cbn; rewrite ?length_app; cbn; lia. }
  destruct (Hgen buckets.empty) as (H1 & H2 & H3); [constructor | constructor |].
  repeat split; auto.
Qed.

(** ** The options of a text for the gerber library *)

(** X12.  [mktextopts] pairs the nine alignments with the nine combinations
    of a horizontal and a vertical anchor, one to one: two texts get the same
    options only if they have the same alignment, and every combination is
    the options of some alignment. *)
Theorem mktextopts_one_to_one :
  (forall x y : Text.t,
     mktextopts x = mktextopts y -> Text.Alignment x = Text.Alignment y)
  /\ (forall opts : gerber.TextOpts,
        exists a : Alignment,
          forall x : Text.t, Text.Alignment x = a -> mktextopts x = opts).
Proof.
  split.
  - intros x y. unfold mktextopts.
    destruct (Text.Alignment x), (Text.Alignment y);
      intros E; first [reflexivity | discriminate E].
  - intros [[ | | ] [ | | ]];
      [ exists BottomLeft | exists CentreLeft | exists features.TopLeft
      | exists BottomCentre | exists Centre | exists TopCentre
      | exists BottomRight | exists CentreRight | exists TopRight ];
      intros x E; unfold mktextopts; rewrite E; reflexivity.
Qed.

(** ** The run of the command *)

Lemma collect_marking_lines (ls : list Line.t) (st : collector) :
  Forall (fun l => Line.Purpose l = Marking) ls ->
  collectPrimitives (map ALine ls) st =
    buckets.join st ({| outlines := []; drills := [];
                        silkscreens := map mkline ls |}, []).
Proof.
  revert st. induction ls as [| l ls IH]; intros st Hall.
  - cbn [map]. symmetry. apply (join_empty_r st).
  - inversion Hall as [| l' ls' Hl Hls]; subst.
    cbn [map]. rewrite collectPrimitives_cons, (IH _ Hls).
    destruct st as [[o d s] out]. cbn [collectPrimitive].
    unfold Line.GetPurpose. rewrite Hl. cbn [Purpose_eqb].
    unfold buckets.join, addsilkscreen. cbn [fst snd outlines drills silkscreens map].
    now rewrite <- !app_assoc.
Qed.

Lemma collect_cutout_circles (cs : list Circle.t) (st : collector) :
  Forall (fun c => Circle.Purpose c = Cutout) cs ->
  collectPrimitives (map ACircle cs) st =
    buckets.join st ({| outlines := []; drills := map mkcircle cs;
                        silkscreens := [] |}, []).
Proof.
  revert st. induction cs as [| c cs IH]; intros st Hall.
  - cbn [map]. symmetry. apply (join_empty_r st).
  - inversion Hall as [| c' cs' Hc Hcs]; subst.
    cbn [map]. rewrite collectPrimitives_cons, (IH _ Hcs).
    destruct st as [[o d s] out]. cbn [collectPrimitive].
    unfold Circle.GetPurpose. rewrite Hc. cbn [Purpose_eqb].
    unfold buckets.join, adddrill. cbn [fst snd outlines drills silkscreens map].
    now rewrite <- !app_assoc.
Qed.

Lemma collect_marking_texts (xs : list Text.t) (st : collector) :
  Forall (fun x => Text.Purpose x = Marking) xs ->
  collectPrimitives (map AText xs) st =
    buckets.join st ({| outlines := []; drills := [];
                        silkscreens := map mktext xs |}, []).
Proof.
  revert st. induction xs as [| x xs IH]; intros st Hall.
  - cbn [map]. symmetry. apply (join_empty_r st).
  - inversion Hall as [| x' xs' Hx Hxs]; subst.
    cbn [map]. rewrite collectPrimitives_cons, (IH _ Hxs).
    destruct st as [[o d s] out]. cbn [collectPrimitive].
    unfold Text.GetPurpose. rewrite Hx. cbn [Purpose_eqb].
    unfold buckets.join, addsilkscreen. cbn [fst snd outlines drills silkscreens map].
    now rewrite <- !app_assoc.
Qed.

(** The decorative lines are lines, and markings. *)
Lemma decorative_lines {T : Type} `{panel.Panel T} (p : T) (fs : list Feature) :
  Forall (interior.decorative p) fs ->
  exists ls, fs = map ALine ls /\ Forall (fun l => Line.Purpose l = Marking) ls.
Proof.
  induction 1 as [| f fs (l & -> & _ & _ & _ & Hl) _ (ls & -> & Hls)].
  - exists []. split; [reflexivity | constructor].
  - exists (l :: ls). split; [reflexivity | now constructor].
Qed.

(** The circles of the outline are cutouts. *)
Lemma holes_are_cutouts (radius : float64) (holes : list Point) :
  Forall (fun c => Circle.Purpose c = Cutout)
         (map (fun centre => {| Circle.Origin := centre; Circle.Radius := radius;
                                Circle.Purpose := Cutout |}) holes).
Proof. induction holes; cbn; constructor; auto. Qed.

(** The texts of the header and the footer are texts, and markings. *)
Lemma header_footer_texts {T : Type} `{panel.Panel T} (p : T) (header footer : string) :
  exists xs,
    panelHeaderFooter p header footer = map AText xs
    /\ Forall (fun x => Text.Purpose x = Marking) xs
    /\ List.length xs =
         ((if (header =? EmptyString)%string then 0 else 1)
          + (if (footer =? EmptyString)%string then 0 else 1))%nat.
Proof.
  unfold panelHeaderFooter.
  destruct (header =? EmptyString)%string, (footer =? EmptyString)%string;
    cbn [negb app];
    eexists;
    (split; [ match goal with
              | |- [] = _ => instantiate (1 := []); reflexivity
              | |- [AText ?x] = _ => instantiate (1 := [x]); reflexivity
              | |- [AText ?x; AText ?y] = _ => instantiate (1 := [x; y]); reflexivity
              end | ]);
    split; try reflexivity; repeat constructor.
Qed.

(** The panel that [configure] returns has the width of the flag, at least 1. *)
Lemma configure_units (format : string) (width : int) (p : PanelValue) :
  configure format width = inl p -> units p = width /\ (1 <= width)%Z.
Proof.
  unfold configure. intros E.
  destruct (Z.ltb_spec width 1) as [Hlt | Hge]; [discriminate E |].
  destruct (format =? "eurorack")%string; [injection E as <-; auto |].
  destruct (format =? "intellijel")%string; [injection E as <-; auto |].
  destruct (format =? "pulplogic")%string; [injection E as <-; auto | discriminate E].
Qed.

(** X13.  A run with flags that [configure] accepts, on draws a source can
    make, ends without a panic and without a message in the log, and hands
    over: in the outline layer the four boundary lines of the panel and
    nothing else; in the drill layer one circle for each mounting hole, in
    their order, of the mounting hole diameter; in the silkscreen layer the
    header text, the footer text (each if not empty) and then the hundred
    decorative lines; in the copper layer the one copper pour. *)
Theorem main_hands_over :
  forall (format : string) (width : int) (header footer : string)
         (tape : rand.Tape) (p : PanelValue),
    rand.Tape_ok tape ->
    configure format width = inl p ->
    exists (xs : list Text.t) (ls : list Line.t) (tape' : rand.Tape),
      panelHeaderFooter p header footer = map AText xs
      /\ randomLines p 100 tape = (Ok (map ALine ls), tape')
      /\ List.length ls = 100%nat
      /\ command.main format width header footer tape =
           (command.Handed
              {| command.Outline :=
                   [ mkline {| Line.Start := panel.TopLeft p; Line.End := panel.TopRight p;
                               Line.Thickness := 0.1; Line.Purpose := Cutout |};
                     mkline {| Line.Start := panel.BottomLeft p;
                               Line.End := panel.BottomRight p;
                               Line.Thickness := 0.1; Line.Purpose := Cutout |};
                     mkline {| Line.Start := panel.TopLeft p;
                               Line.End := panel.BottomLeft p;
                               Line.Thickness := 0.1; Line.Purpose := Cutout |};
                     mkline {| Line.Start := panel.TopRight p;
                               Line.End := panel.BottomRight p;
                               Line.Thickness := 0.1; Line.Purpose := Cutout |} ];
                 command.TopSilkscreen := map mktext xs ++ map mkline ls;
                 command.Drill :=
                   map (fun centre =>
                          gerber.Circle (gerber.Point (X centre) (Y centre))
                                        (panel.MountingHoleDiameter p / 2.0 * 2.0))
                       (panel.MountingHoles p);
                 command.TopCopper := [command.copperPour p] |}
              [],
            tape')
      /\ panel.MountingHoleDiameter p / 2.0 * 2.0 == panel.MountingHoleDiameter p.
Proof.
  intros format width header footer tape p Hok Hcfg.
  assert (Hhp : (1 <= units p)%Z).
  { destruct (configure_units format width p Hcfg) as [-> Hw]. exact Hw. }
  destruct (formats_have_room p Hhp) as [Hx Hy].
  destruct (randomLines_decorative rand.Tape_ok Tape_lawful p Hx Hy 100%Z tape Hok)
    as (lines & tape' & Erl & Elen & Hall & _).
  destruct (decorative_lines p lines Hall) as (ls & -> & Hls).
  destruct (header_footer_texts p header footer) as (xs & Ehf & Hxs & _).
  exists xs, ls, tape'.
  split; [exact Ehf |]. split; [exact Erl |].
  split; [now rewrite length_map in Elen |].
  split; [| field].
  unfold command.main. rewrite Hcfg.
  rewrite (outline_of_panel p (diameter_of_formats p)), Erl, Ehf.
  rewrite (collect_marking_lines ls _ Hls), (collect_marking_texts xs _ Hxs).
  rewrite <- (map_map (fun centre =>
                         {| Circle.Origin := centre;
                            Circle.Radius := panel.MountingHoleDiameter p / 2.0;
                            Circle.Purpose := Cutout |}) ACircle).
  rewrite collectPrimitives_app.
  rewrite (collect_cutout_circles _ _ (holes_are_cutouts _ _)).
  cbn. rewrite map_map. cbn. rewrite ?app_nil_r. reflexivity.
Qed.

Lemma main_hands_over_witness :
  rand.Tape_ok {| rand.floats := []; rand.ints := [] |}
  /\ configure "pulplogic" 6 = inl (OfPulplogic (pulplogic.NewPulplogic 6))
  /\ exists g tape',
       command.main "pulplogic" 6 "VCO" EmptyString
                    {| rand.floats := []; rand.ints := [] |}
         = (command.Handed g [], tape')
       /\ List.length (command.Outline g) = 4%nat
       /\ List.length (command.Drill g) = 2%nat
       /\ List.length (command.TopSilkscreen g) = 101%nat.
Proof.
  assert (Hok : rand.Tape_ok {| rand.floats := []; rand.ints := [] |})
    by constructor.
  assert (Hcfg : configure "pulplogic" 6 = inl (OfPulplogic (pulplogic.NewPulplogic 6)))
    by reflexivity.
  split; [exact Hok | split; [exact Hcfg |]].
  destruct (main_hands_over "pulplogic" 6 "VCO" EmptyString _ _ Hok Hcfg)
    as (xs & ls & tape' & Ehf & _ & Elen & Emain & _).
  eexists; exists tape'. split; [exact Emain |].
  cbn [command.Outline command.Drill command.TopSilkscreen].
  split; [reflexivity |]. split; [reflexivity |].
  rewrite length_app, !length_map, Elen.
  assert (Exs : List.length (map AText xs) = 1%nat) by (rewrite <- Ehf; reflexivity).
  rewrite length_map in Exs. rewrite Exs. reflexivity.
Defined.

(** ** The options of a text *)

(** X14.  The three options of [NewText] never touch the origin, the text
    and the purpose: whatever the list of such options, the text feature is
    at the origin given, with the text given, and a marking.  Of two options
    of one kind in a row the later one wins, and two options of different
    kinds in a row may be swapped. *)
Theorem NewText_options_compose :
  forall (origin : Point) (text : string) (options : list TextOptionFunc),
    Forall (fun opt => (exists a, opt = WithAlignment a)
                       \/ (exists size, opt = WithSize size)
                       \/ (exists r, opt = WithRotation r)) options ->
    (Text.Origin (NewText origin text options) = origin
     /\ Text.Text (NewText origin text options) = text
     /\ Text.Purpose (NewText origin text options) = Marking)
    /\ (forall a1 a2,
          NewText origin text (options ++ [WithAlignment a1; WithAlignment a2]) =
          NewText origin text (options ++ [WithAlignment a2]))
    /\ (forall s1 s2,
          NewText origin text (options ++ [WithSize s1; WithSize s2]) =
          NewText origin text (options ++ [WithSize s2]))
    /\ (forall r1 r2,
          NewText origin text (options ++ [WithRotation r1; WithRotation r2]) =
          NewText origin text (options ++ [WithRotation r2]))
    /\ (forall a size,
          NewText origin text (options ++ [WithAlignment a; WithSize size]) =
          NewText origin text (options ++ [WithSize size; WithAlignment a]))
    /\ (forall a r,
          NewText origin text (options ++ [WithAlignment a; WithRotation r]) =
          NewText origin text (options ++ [WithRotation r; WithAlignment a]))
    /\ (forall size r,
          NewText origin text (options ++ [WithSize size; WithRotation r]) =
          NewText origin text (options ++ [WithRotation r; WithSize size])).
Proof.
  intros origin text options Hall.
  split.
  - unfold NewText.
    set (x0 := {| Text.Origin := origin; Text.Alignment := TopLeft;
                  Text.Purpose := Marking; Text.Text := text; Text.Size := 14.0;
                  Text.Rotate := 0 |}).
    assert (Hgen : forall x,
              Text.Origin (fold_left (fun y opt => opt y) options x) = Text.Origin x
              /\ Text.Text (fold_left (fun y opt => opt y) options x) = Text.Text x
              /\ Text.Purpose (fold_left (fun y opt => opt y) options x)
                 = Text.Purpose x).
    { induction Hall as [| opt options Hopt _ IH]; intros x; [cbn; auto |].
      cbn [fold_left]. destruct (IH (opt x)) as (H1 & H2 & H3).
      rewrite H1, H2, H3.
      destruct Hopt as [[a ->] | [[size ->] | [r ->]]]; cbn; auto. }
    apply (Hgen x0).
  - unfold NewText. repeat split; intros; rewrite !fold_left_app; reflexivity.
Qed.

Lemma NewText_options_compose_witness :
  Forall (fun opt => (exists a, opt = WithAlignment a)
                     \/ (exists size, opt = WithSize size)
                     \/ (exists r, opt = WithRotation r))
         [WithAlignment Centre; WithSize 16.0]
  /\ Text.Purpose (NewText {| X := 1; Y := 2 |} "VCO"
                           [WithAlignment Centre; WithSize 16.0]) = Marking.
Proof.
  assert (Hall : Forall (fun opt => (exists a, opt = WithAlignment a)
                                    \/ (exists size, opt = WithSize size)
                                    \/ (exists r, opt = WithRotation r))
                        [WithAlignment Centre; WithSize 16.0]).
  { constructor; [left; exists Centre; reflexivity |].
    constructor; [right; left; exists 16.0; reflexivity | constructor]. }
  split; [exact Hall |].
  apply (NewText_options_compose {| X := 1; Y := 2 |} "VCO" _ Hall).
Defined.

(** ** The constructors of lines and circles *)


(** ** The names of the enumerations *)

(** X16.  The names that [String] gives are one to one, for the purposes and
    for the alignments: two integers with the same name are the same, and
    are the value of a declared constant. *)
Theorem String_names_one_to_one :
  forall (a b : int) (name : string),
    (stringer.Purpose_String a = Ok name /\ stringer.Purpose_String b = Ok name)
    \/ (stringer.Alignment_String a = Ok name
        /\ stringer.Alignment_String b = Ok name) ->
    a = b
    /\ ((exists p, Purpose_value p = a) \/ (exists al, Alignment_value al = a)).
Proof.
  intros a b name [[Ha Hb] | [Ha Hb]].
  - unfold stringer.Purpose_String in *. cbn [Purpose_value] in *.
    repeat match goal with
           | H : context [(?x =? ?k)%Z] |- _ => destruct (Z.eqb_spec x k)
           end;
      try discriminate; subst;
      try (injection Ha as <-; discriminate Hb);
      (split; [reflexivity | left]);
      [exists Marking | exists Cutout]; reflexivity.
  - unfold stringer.Alignment_String in *. cbn [Alignment_value] in *.
    repeat match goal with
           | H : context [(?x =? ?k)%Z] |- _ => destruct (Z.eqb_spec x k)
           end;
      try discriminate; subst;
      try (injection Ha as <-; discriminate Hb);
      (split; [reflexivity | right]);
      [ exists TopLeft | exists TopCentre | exists TopRight
      | exists CentreLeft | exists Centre | exists CentreRight
      | exists BottomLeft | exists BottomCentre | exists BottomRight ]; reflexivity.
Qed.

Lemma String_names_one_to_one_witness :
  ((stringer.Purpose_String 4 = Ok "centre" /\ stringer.Purpose_String 4 = Ok "centre")
   \/ (stringer.Alignment_String 4 = Ok "centre"
       /\ stringer.Alignment_String 4 = Ok "centre"))
  /\ 4%Z = 4%Z.
Proof.
  assert (H : (stringer.Purpose_String 4 = Ok "centre"
               /\ stringer.Purpose_String 4 = Ok "centre")
              \/ (stringer.Alignment_String 4 = Ok "centre"
                  /\ stringer.Alignment_String 4 = Ok "centre"))
    by (right; split; reflexivity).
  split; [exact H |].
  apply (String_names_one_to_one 4 4 "centre" H).
Defined.

(** X17.  [String] names exactly the declared constants: a purpose from 0 to
    1, an alignment from 0 to 8.  On any other integer it panics, and the
    message gives the valid range and the integer. *)
Theorem String_panics_outside_the_constants :
  forall a : int,
    ((exists name, stringer.Purpose_String a = Ok name) <-> (0 <= a <= 1)%Z)
    /\ (stringer.Purpose_String a =
          Panic ("invalid Purpose value (valid range is 0..1): " ++ stringer.itoa a)
        <-> ~ (0 <= a <= 1)%Z)
    /\ ((exists name, stringer.Alignment_String a = Ok name) <-> (0 <= a <= 8)%Z)
    /\ (stringer.Alignment_String a =
          Panic ("invalid Alignment value (valid range is 0..8): " ++ stringer.itoa a)
        <-> ~ (0 <= a <= 8)%Z).
Proof.
  intros a.
  assert (HP : a = 0%Z \/ a = 1%Z \/ ~ (0 <= a <= 1)%Z) by lia.
  assert (HA : (a = 0 \/ a = 1 \/ a = 2 \/ a = 3 \/ a = 4 \/ a = 5 \/ a = 6
                \/ a = 7 \/ a = 8)%Z \/ ~ (0 <= a <= 8)%Z) by lia.
  split; [| split; [| split]].
  - destruct HP as [-> | [-> | Hout]].
    + split; [intros _; lia | intros _; eexists; reflexivity].
    + split; [intros _; lia | intros _; eexists; reflexivity].
    + unfold stringer.Purpose_String. cbn [Purpose_value].
      rewrite !(proj2 (Z.eqb_neq a _)) by lia.
      split; [intros [name H]; discriminate H | intros H; contradiction].
  - destruct HP as [-> | [-> | Hout]].
    + split; [intros H; discriminate H | intros H; exfalso; lia].
    + split; [intros H; discriminate H | intros H; exfalso; lia].
    + unfold stringer.Purpose_String. cbn [Purpose_value].
      rewrite !(proj2 (Z.eqb_neq a _)) by lia.
      split; [intros _; exact Hout | intros _; reflexivity].
  - destruct HA as [Hin | Hout].
    + split; [intros _; lia |].
      intros _. repeat (destruct Hin as [-> | Hin]; [eexists; reflexivity |]).
      subst a. eexists; reflexivity.
    + unfold stringer.Alignment_String. cbn [Alignment_value].
      rewrite !(proj2 (Z.eqb_neq a _)) by lia.
      split; [intros [name H]; discriminate H | intros H; contradiction].
  - destruct HA as [Hin | Hout].
    + split; [| intros H; exfalso; lia].
      intros H. exfalso.
      repeat (destruct Hin as [-> | Hin]; [discriminate H |]).
      subst a. discriminate H.
    + unfold stringer.Alignment_String. cbn [Alignment_value].
      rewrite !(proj2 (Z.eqb_neq a _)) by lia.
      split; [intros _; exact Hout | intros _; reflexivity].
Qed.

(** ** The draws of the decorative lines *)

Lemma skipn_S_tl {A : Type} (k : nat) (l : list A) : skipn (S k) l = skipn k (tl l).
Proof. destruct l; [destruct k |]; reflexivity. Qed.

Lemma randomLines_loop_draws {T : Type} `{panel.Panel T} (p : T) (k : nat) :
  forall (lines : list Feature) (tape : rand.Tape),
    exists lines',
      randomLines_loop p k lines tape =
        (Ok lines', {| rand.floats := skipn (4 * k) (rand.floats tape);
                       rand.ints := skipn k (rand.ints tape) |})
      /\ List.length lines' = (List.length lines + k)%nat.
Proof.
  induction k as [| k IH]; intros lines [fs is_].
  - exists lines. cbn. split; [reflexivity | lia].
  - cbn [randomLines_loop]. unfold rxy. cbn [rand.Float64 rand.Intn rand.Tape_Source
      rand.floats rand.ints].
    assert (Hi : (0 <= hd 0 is_ mod 3 < 3)%Z) by (apply Z.mod_pos_bound; lia).
    destruct (thickness_of_draw _ Hi) as [_ Hpos].
    unfold NewLine. rewrite (f_ltb_false _ _ Hpos).
    match goal with
    | |- context [randomLines_loop p k ?ls ?tp] => destruct (IH ls tp) as (lines' & E & Elen)
    end.
    exists lines'. rewrite E. cbn [rand.floats rand.ints].
    split.
    + replace (4 * S k)%nat with (S (S (S (S (4 * k))))) by lia.
      rewrite !skipn_S_tl. reflexivity.
    + rewrite Elen, length_app. cbn. lia.
Qed.

(** X18.  On replayed draws, whatever they are, [randomLines] does not
    panic and makes four draws of [Float64] and one of [Intn] for each line:
    for a count [n] it returns [n] lines (none when [n] is negative) and
    leaves the tape without its first [4 n] numbers and its first [n]
    integers. *)
Theorem randomLines_draws :
  forall (p : PanelValue) (n : int) (tape : rand.Tape),
    exists lines,
      randomLines p n tape =
        (Ok lines,
         {| rand.floats := skipn (4 * Z.to_nat n) (rand.floats tape);
            rand.ints := skipn (Z.to_nat n) (rand.ints tape) |})
      /\ List.length lines = Z.to_nat n.
Proof.
  intros p n tape. unfold randomLines.
  destruct (randomLines_loop_draws p (Z.to_nat n) [] tape) as (lines & E & Elen).
  exists lines. split; [exact E | exact Elen].
Qed.

(** X19.  For each of the formats, every width from one unit on, every count
    and every tape of draws that a source can make, [randomLines] returns
    that many lines, each a marking of thickness 0.0, 0.1 or 0.2, with both
    end points between the rails and, in X, from twice the horizontal fit to
    the nominal width of the panel. *)
Theorem randomLines_between_rails :
  forall (p : PanelValue) (n : int) (tape : rand.Tape),
    (1 <= units p)%Z ->
    rand.Tape_ok tape ->
    exists (ls : list Line.t) (tape' : rand.Tape),
      randomLines p n tape = (Ok (map ALine ls), tape')
      /\ List.length ls = Z.to_nat n
      /\ Forall
           (fun l =>
              Line.Purpose l = Marking
              /\ (Line.Thickness l == 0.0 \/ Line.Thickness l == 0.1
                  \/ Line.Thickness l == 0.2)
              /\ Forall
                   (fun pt =>
                      (panel.HorizontalFit p * 2 <= X pt /\ X pt <= panel.Width p)
                      /\ panel.RailHeightFromMountingHole p + panel.MountingHoleBottomY p
                         <= Y pt
                      /\ Y pt <= panel.Height p
                                 - (panel.RailHeightFromMountingHole p
                                    + panel.MountingHoleBottomY p))
                   [Line.Start l; Line.End l])
           ls.
Proof.
  intros p n tape Hhp Hok.
  destruct (randomLines_of_formats p n tape Hhp Hok) as (lines & tape' & E & Elen & Hall).
  assert (Hls : exists ls,
            lines = map ALine ls
            /\ Forall
                 (fun l =>
                    Line.Purpose l = Marking
                    /\ (Line.Thickness l == 0.0 \/ Line.Thickness l == 0.1
                        \/ Line.Thickness l == 0.2)
                    /\ Forall
                         (fun pt =>
                            (panel.HorizontalFit p * 2 <= X pt /\ X pt <= panel.Width p)
                            /\ panel.RailHeightFromMountingHole p
                               + panel.MountingHoleBottomY p <= Y pt
                            /\ Y pt <= panel.Height p
                                       - (panel.RailHeightFromMountingHole p
                                          + panel.MountingHoleBottomY p))
                         [Line.Start l; Line.End l])
                 ls).
  { clear E Elen.
    induction Hall as [| f fs (l & -> & Ha & Hb & Ht & Hl) _ (ls & -> & Hls)].
    - exists []. split; [reflexivity | constructor].
    - exists (l :: ls). split; [reflexivity |].
      constructor; [| exact Hls].
      split; [exact Hl |]. split; [exact Ht |].
      destruct Ha as [Hax [Hay1 Hay2]]. destruct Hb as [Hbx [Hby1 Hby2]].
      unfold interior.endheight in *.
      repeat constructor; tauto. }
  destruct Hls as (ls & -> & Hls).
  exists ls, tape'. split; [exact E |].
  split; [now rewrite length_map in Elen | exact Hls].
Qed.

Lemma randomLines_between_rails_witness :
  (1 <= units (OfEurorack (eurorack.NewEurorack 8)))%Z
  /\ rand.Tape_ok {| rand.floats := [0.99; 0.5; 0.25; 0.75]; rand.ints := [2%Z] |}
  /\ exists ls tape',
       randomLines (OfEurorack (eurorack.NewEurorack 8)) 1
                   {| rand.floats := [0.99; 0.5; 0.25; 0.75]; rand.ints := [2%Z] |}
         = (Ok (map ALine ls), tape')
       /\ List.length ls = 1%nat.
Proof.
  assert (Hhp : (1 <= units (OfEurorack (eurorack.NewEurorack 8)))%Z) by (cbn; lia).
  assert (Hok : rand.Tape_ok
                  {| rand.floats := [0.99; 0.5; 0.25; 0.75]; rand.ints := [2%Z] |}).
  { unfold rand.Tape_ok. cbn. repeat constructor; q_eval. }
  split; [exact Hhp | split; [exact Hok |]].
  destruct (randomLines_between_rails _ 1 _ Hhp Hok) as (ls & tape' & E & Elen & _).
  exists ls, tape'. split; [exact E | exact Elen].
Defined.

(** ** Widths that are not panels *)

(** X20.  The constructors of the formats take any integer: the width of
    the panel is positive exactly when the units are 1 or more, so that a
    panel of no or of negative units has no or a negative width.  The check
    of the width in [configure] is the only guard. *)
Theorem Width_positive_from_one_unit :
  forall p : PanelValue,
    (0 < panel.Width p <-> (1 <= units p)%Z)
    /\ (panel.Width p <= 0 <-> (units p <= 0)%Z).
Proof.
  intros p.
  destruct (Z.eq_dec (units p) 1) as [E | Hne].
  - assert (HW : panel.Width p == 5.00)
      by (destruct p as [[hp] | [hp] | [hp]]; cbn in E; subst hp; q_eval).
    rewrite HW, E. repeat split; intros H; try lia; try q_eval.
    exfalso. revert H. q_differ.
  - destruct (numbers_of_formats p Hne) as (HW & _).
    rewrite HW.
    assert (Hpos : (1 <= units p)%Z -> 2 <= inject_Z (units p))
      by (intros H; apply (inject_Z_ge 2); lia).
    assert (Hneg : (units p <= 0)%Z -> inject_Z (units p) <= 0)
      by (intros H; apply (inject_Z_ge (units p) 0); exact H).
    repeat split; intros H.
    + destruct (Z_le_gt_dec (units p) 0) as [Hle | Hgt]; [| lia].
      apply Hneg in Hle. exfalso. lra.
    + apply Hpos in H. lra.
    + destruct (Z_le_gt_dec (units p) 0) as [Hle | Hgt]; [exact Hle |].
      assert (H1 : (1 <= units p)%Z) by lia. apply Hpos in H1. exfalso. lra.
    + apply Hneg in H. lra.
Qed.

(** ** The texts on a panel of one unit *)

(** X21.  On a panel of one unit, in each of the formats, the footer and the
    header are anchored at the centres of the two mounting holes, the bottom
    one and the top one. *)
Theorem one_unit_texts_on_the_holes :
  forall p : PanelValue,
    units p = 1%Z ->
    Forall2 Point_eq [panel.FooterLocation p; panel.HeaderLocation p]
                     (panel.MountingHoles p)
    /\ forall header footer : string,
         Forall (fun f => exists x hole,
                            f = AText x /\ In hole (panel.MountingHoles p)
                            /\ Point_eq (Text.Origin x) hole)
                (panelHeaderFooter p header footer).
Proof.
  intros p E.
  assert (Hanchor : Forall2 Point_eq [panel.FooterLocation p; panel.HeaderLocation p]
                                     (panel.MountingHoles p)).
  { destruct p as [[hp] | [hp] | [hp]]; cbn in E; subst hp;
      repeat constructor; q_eval. }
  split; [exact Hanchor |].
  intros header footer. clear Hanchor.
  destruct p as [[hp] | [hp] | [hp]]; cbn in E; subst hp;
    unfold panelHeaderFooter;
    destruct (header =? EmptyString)%string, (footer =? EmptyString)%string;
    cbn [negb app]; repeat (apply Forall_cons || apply Forall_nil);
    eexists; eexists; (split; [reflexivity |]);
    first [ split; [left; reflexivity | split; q_eval]
          | split; [right; left; reflexivity | split; q_eval] ].
Qed.

Lemma one_unit_texts_on_the_holes_witness :
  units (OfIntellijel (intellijel.NewIntellijel 1)) = 1%Z
  /\ Forall2 Point_eq
       [panel.FooterLocation (OfIntellijel (intellijel.NewIntellijel 1));
        panel.HeaderLocation (OfIntellijel (intellijel.NewIntellijel 1))]
       (panel.MountingHoles (OfIntellijel (intellijel.NewIntellijel 1))).
Proof.
  assert (E : units (OfIntellijel (intellijel.NewIntellijel 1)) = 1%Z) by reflexivity.
  split; [exact E |].
  apply (one_unit_texts_on_the_holes _ E).
Defined.
